(** * savref: a shallow embedding of the vulnerability-repair pipeline

    The development follows the layout of the Python sources under [run/]:

    - [PyStr]: Python [str] values as lists of code points, with the
      [str] methods the sources call ([strip], [splitlines], [join],
      [count]);
    - [Re]: the backtracking matcher behind [re.findall] for the
      patterns of [LLMInference.extract_code_from_response];
    - later modules: prompt templating, the security graph, the file
      utilities, the evaluator and the driver [main.py]. *)

From stdpp Require Import base option list numbers strings pretty gmap.
From Stdlib Require Import QArith Qcanon.

#[local] Open Scope N_scope.
#[local] Open Scope list_scope.

(** ** Python strings *)

Module PyStr.

(** A Python [str] is a sequence of Unicode code points.  Literals are
    written as UTF-8 text and decoded. *)
Fixpoint utf8_decode (bs : list N) : list N :=
  match bs with
  | [] => []
  | b :: r =>
      if b <? 128 then b :: utf8_decode r
      else if b <? 224 then
        match r with
        | b2 :: r' => ((b - 192) * 64 + (b2 - 128)) :: utf8_decode r'
        | [] => [b]
        end
      else if b <? 240 then
        match r with
        | b2 :: b3 :: r' =>
            ((b - 224) * 4096 + (b2 - 128) * 64 + (b3 - 128)) :: utf8_decode r'
        | _ => b :: r
        end
      else
        match r with
        | b2 :: b3 :: b4 :: r' =>
            ((b - 240) * 262144 + (b2 - 128) * 4096 + (b3 - 128) * 64 + (b4 - 128))
              :: utf8_decode r'
        | _ => b :: r
        end
  end.

Definition lit (s : string) : list N :=
  utf8_decode (Ascii.N_of_ascii <$> String.list_ascii_of_string s).

(** [str.isspace] on one code point, CPython's [_PyUnicode_IsWhitespace];
    the same table drives [\s] in [re] for [str] patterns and
    [str.strip()] without arguments. *)
Definition isspace (c : N) : bool :=
  ((9 <=? c) && (c <=? 13)) || ((28 <=? c) && (c <=? 32))
  || (c =? 133) || (c =? 160) || (c =? 5760)
  || ((8192 <=? c) && (c <=? 8202))
  || (c =? 8232) || (c =? 8233) || (c =? 8239) || (c =? 8287)
  || (c =? 12288).

Fixpoint lstrip (s : list N) : list N :=
  match s with
  | [] => []
  | c :: s' => if isspace c then lstrip s' else s
  end.

Definition rstrip (s : list N) : list N := rev (lstrip (rev s)).

(** [s.strip()] *)
Definition strip (s : list N) : list N := rstrip (lstrip s).

(** [strip_prefix w s] is [Some r] when [s = w ++ r]. *)
Fixpoint strip_prefix (w s : list N) : option (list N) :=
  match w with
  | [] => Some s
  | c :: w' =>
      match s with
      | [] => None
      | x :: s' => if N.eqb x c then strip_prefix w' s' else None
      end
  end.

(** [find_first w s] cuts [s] at the leftmost occurrence of [w]:
    the text before it and the text after it ([str.partition]). *)
Fixpoint find_first (w s : list N) : option (list N * list N) :=
  match strip_prefix w s with
  | Some r => Some ([], r)
  | None =>
      match s with
      | [] => None
      | x :: s' =>
          match find_first w s' with
          | Some (a, b) => Some (x :: a, b)
          | None => None
          end
      end
  end.

(** The line boundaries of [str.splitlines]: LF, VT, FF, CR, FS, GS,
    RS, NEL, LS and PS. *)
Definition is_linebreak (c : N) : bool :=
  ((10 <=? c) && (c <=? 13)) || ((28 <=? c) && (c <=? 30))
  || (c =? 133) || (c =? 8232) || (c =? 8233).

(** [s.splitlines()]: the lines without their terminators; CR LF is one
    terminator, and a final terminator opens no further line.  [cur_rev]
    is the line being read, reversed. *)
Fixpoint splitlines_from (cur_rev s : list N) : list (list N) :=
  match s with
  | [] => match cur_rev with [] => [] | _ => [rev cur_rev] end
  | c :: s' =>
      if is_linebreak c then
        rev cur_rev ::
          match s' with
          | d :: s'' => if (c =? 13) && (d =? 10)
                        then splitlines_from [] s''
                        else splitlines_from [] s'
          | [] => splitlines_from [] s'
          end
      else splitlines_from (c :: cur_rev) s'
  end.

Definition splitlines (s : list N) : list (list N) := splitlines_from [] s.

(** [sep.join(parts)] *)
Fixpoint join (sep : list N) (parts : list (list N)) : list N :=
  match parts with
  | [] => []
  | [p] => p
  | p :: rest => p ++ sep ++ join sep rest
  end.

(** [s.split(sep)] for a single character [sep] *)
Fixpoint split_on (sep : N) (s : list N) : list (list N) :=
  match s with
  | [] => [[]]
  | c :: s' =>
      if c =? sep then [] :: split_on sep s'
      else match split_on sep s' with
           | l :: ls => (c :: l) :: ls
           | [] => [[c]]
           end
  end.

(** A list of lines without its last line when that line is empty:
    what [splitlines] gives back for lines joined by newlines. *)
Fixpoint without_final_empty (ls : list (list N)) : list (list N) :=
  match ls with
  | [] => []
  | [l] => match l with [] => [] | _ => [l] end
  | l :: ls' => l :: without_final_empty ls'
  end.

(** [s.count(c)] for a single character [c] *)
Definition count (c : N) (s : list N) : nat :=
  length (filter (λ x, x = c) s).

(** [l[a:b]] for [0 <= a] *)
Definition slice {A} (a b : nat) (l : list A) : list A :=
  take (b - a) (drop a l).

(** [s.replace(old, new)] for a non-empty [old]: the occurrences are
    replaced from the left, without overlap. *)
Fixpoint replace_fuel (fuel : nat) (old new s : list N) : list N :=
  match fuel with
  | O => s
  | S fuel' =>
      match find_first old s with
      | Some (a, b) => a ++ new ++ replace_fuel fuel' old new b
      | None => s
      end
  end.

Definition replace (old new s : list N) : list N := replace_fuel (length s) old new s.

(** What [read] gives for a file opened in text mode with the default
    [newline=None]: CR LF and a lone CR become LF. *)
Fixpoint universal_newlines (s : list N) : list N :=
  match s with
  | [] => []
  | c :: s' =>
      if c =? 13 then
        match s' with
        | d :: s'' => if d =? 10 then 10 :: universal_newlines s''
                      else 10 :: universal_newlines s'
        | [] => [10]
        end
      else c :: universal_newlines s'
  end.

(** A lone surrogate cannot be encoded as UTF-8. *)
Definition is_surrogate (c : N) : bool := (55296 <=? c) && (c <=? 57343).

Definition encodable (s : list N) : bool := forallb (λ c, negb (is_surrogate c)) s.

(** *** [posixpath] *)

(** [p[:p.rfind('/') + 1]] *)
Fixpoint upto_last_sep (p : list N) : list N :=
  match p with
  | [] => []
  | c :: p' => if existsb (N.eqb 47) p then c :: upto_last_sep p' else []
  end.

(** [s.rstrip('/')] *)
Fixpoint lstrip_sep (s : list N) : list N :=
  match s with
  | [] => []
  | c :: s' => if c =? 47 then lstrip_sep s' else s
  end.

Definition rstrip_sep (s : list N) : list N := rev (lstrip_sep (rev s)).

(** [os.path.dirname(p)]: the head up to the last slash, without its
    trailing slashes unless it consists of slashes only. *)
Definition dirname (p : list N) : list N :=
  let head := upto_last_sep p in
  if forallb (N.eqb 47) head then head else rstrip_sep head.

(** [os.path.join(a, b)] *)
Definition os_path_join (a b : list N) : list N :=
  match b with
  | 47 :: _ => b
  | _ =>
      match last a with
      | None => b
      | Some c => if c =? 47 then a ++ b else a ++ [47] ++ b
      end
  end.

End PyStr.

(** ** The regular expressions of [inference.py] *)

Module Re.
Import PyStr.

(** The two patterns of [extract_code_from_response] are sequences of
    literals, one capture group and starred character classes, greedy
    ([\s*]) or lazy ([[\s\S]*?]). *)
Inductive item :=
| ILit (c : N)
| IGreedy (cls : N → bool)
| ILazy (cls : N → bool)
| IOpen
| IClose.

(** The text of group 1 collected so far (reversed) and whether the
    group is open. *)
Record capture := Capture { cap_rev : list N; cap_on : bool }.

Definition push (x : N) (k : capture) : capture :=
  if cap_on k then Capture (x :: cap_rev k) true else k.

(** Backtracking match anchored at the head of the subject, with the
    priorities of [re]: a greedy star first tries one more character, a
    lazy star first tries the rest of the pattern. *)
Fixpoint re_match (its : list item) : list N → capture → option (list N * list N) :=
  match its with
  | [] => λ s k, Some (rev (cap_rev k), s)
  | ILit c :: its' => λ s k,
      match s with
      | x :: s' => if N.eqb x c then re_match its' s' (push x k) else None
      | [] => None
      end
  | IOpen :: its' => λ s k, re_match its' s (Capture [] true)
  | IClose :: its' => λ s k, re_match its' s (Capture (cap_rev k) false)
  | IGreedy cls :: its' =>
      fix greedy (s : list N) (k : capture) {struct s} :=
        match s with
        | x :: s' =>
            if cls x then
              match greedy s' (push x k) with
              | Some r => Some r
              | None => re_match its' s k
              end
            else re_match its' s k
        | [] => re_match its' s k
        end
  | ILazy cls :: its' =>
      fix lazy (s : list N) (k : capture) {struct s} :=
        match re_match its' s k with
        | Some r => Some r
        | None =>
            match s with
            | x :: s' => if cls x then lazy s' (push x k) else None
            | [] => None
            end
        end
  end.

(** [re.findall(pattern, s)] for a pattern with one group: the group of
    every match, scanning from the left; the scan resumes where a match
    ended (one character further when the match was empty). *)
Fixpoint findall_fuel (fuel : nat) (its : list item) (s : list N) : list (list N) :=
  match fuel with
  | O => []
  | S fuel' =>
      match re_match its s (Capture [] false) with
      | Some (g, r) =>
          g :: (if decide (length r < length s)%nat
                then findall_fuel fuel' its r
                else match s with
                     | [] => []
                     | _ :: s' => findall_fuel fuel' its s'
                     end)
      | None =>
          match s with
          | [] => []
          | _ :: s' => findall_fuel fuel' its s'
          end
      end
  end.

Definition findall (its : list item) (s : list N) : list (list N) :=
  findall_fuel (S (length s)) its s.

Definition lits (s : string) : list item := ILit <$> lit s.

(** [\s] is [isspace]; [[\s\S]] is the union of [\s] and its complement. *)
Definition cls_sS (c : N) : bool := isspace c || negb (isspace c).

(** [r"```java\s*([\s\S]*?)\s*```"] *)
Definition java_pattern : list item :=
  lits "```java" ++ [IGreedy isspace; IOpen; ILazy cls_sS; IClose; IGreedy isspace] ++ lits "```".

(** [r"```\s*([\s\S]*?)\s*```"] *)
Definition code_pattern : list item :=
  lits "```" ++ [IGreedy isspace; IOpen; ILazy cls_sS; IClose; IGreedy isspace] ++ lits "```".

End Re.

(** ** [run/inference/inference.py] *)

Module Inference.
Import PyStr Re.

(** [LLMInference.extract_code_from_response]; the argument is [None]
    or a [str]. *)
Definition extract_code_from_response (response_text : option (list N)) : option (list N) :=
  match response_text with
  | None => None
  | Some [] => None
  | Some text =>
      match findall java_pattern text with
      | m0 :: _ => Some (strip m0)
      | [] =>
          match findall code_pattern text with
          | m0 :: _ => Some (strip m0)
          | [] => Some text
          end
      end
  end.

(** The claim's wording: the content of the first block opened by
    [opener] and closed by the next fence. *)
Definition first_fenced_block (opener text : list N) : option (list N) :=
  match find_first opener text with
  | Some (_, after) =>
      match find_first (lit "```") after with
      | Some (body, _) => Some body
      | None => None
      end
  | None => None
  end.

End Inference.


(** ** Python values, exceptions and control flow *)

Module Py.

#[local] Set Warnings "-register-all".

(** Instances of [Exception]; [KeyboardInterrupt] and [SystemExit] are
    not [Exception]s and are outside the model. *)
Inductive exn :=
| ImportError
| KeyError (key : list N)
| AttributeError (name : string)
| TypeError
| ValueError
| IndexError
| OSError
| ToolError (tag : string).

#[global] Instance exn_eq_dec : EqDecision exn.
Proof. solve_decision. Defined.

Definition is_ImportError (e : exn) : bool :=
  match e with ImportError => true | _ => false end.

(** Scalars: JSON leaves, GraphML attribute values, dataset cells.
    Floats are only stored, compared and passed on, never computed
    with; they are represented by the rational they denote. *)
Inductive scalar :=
| SNone
| SBool (b : bool)
| SInt (n : Z)
| SFloat (q : Qc)
| SStr (s : list N).

(** The values the pipeline stores in dictionaries and dumps as JSON.
    A [dict] keeps its keys in insertion order. *)
Inductive pyval :=
| VS (a : scalar)
| VList (l : list pyval)
| VDict (d : list (list N * pyval)).

Abbreviation VNone := (VS SNone).
Abbreviation VBool b := (VS (SBool b)).
Abbreviation VInt n := (VS (SInt n)).
Abbreviation VFloat q := (VS (SFloat q)).
Abbreviation VStr s := (VS (SStr s)).

#[global] Instance scalar_eq_dec : EqDecision scalar.
Proof. solve_decision. Defined.

(** [bool(v)] *)
Definition truthy_scalar (a : scalar) : bool :=
  match a with
  | SNone => false
  | SBool b => b
  | SInt n => negb (n =? 0)%Z
  | SFloat q => negb (bool_decide (q = 0%Qc))
  | SStr s => negb (bool_decide (s = []))
  end.

Definition truthy (v : pyval) : bool :=
  match v with
  | VS a => truthy_scalar a
  | VList l => match l with [] => false | _ => true end
  | VDict d => match d with [] => false | _ => true end
  end.

(** Numbers compare by value across [bool], [int] and [float]. *)
Definition num_of (a : scalar) : option Qc :=
  match a with
  | SBool b => Some (if b then 1%Qc else 0%Qc)
  | SInt n => Some (Q2Qc (inject_Z n))
  | SFloat q => Some q
  | _ => None
  end.

(** [a == b] on scalars *)
Definition py_eq (a b : scalar) : bool :=
  match num_of a, num_of b with
  | Some x, Some y => bool_decide (x = y)
  | None, None => bool_decide (a = b)
  | _, _ => false
  end.

(** [a != v] for an arbitrary right operand: a scalar never equals a
    list or a dictionary. *)
Definition py_ne (a : scalar) (v : pyval) : bool :=
  match v with
  | VS b => negb (py_eq a b)
  | _ => true
  end.

(** [s < t] on strings: lexicographic on code points. *)
Fixpoint str_lt (s t : list N) : bool :=
  match s, t with
  | _, [] => false
  | [], _ :: _ => true
  | x :: s', y :: t' => (x <? y) || ((x =? y) && str_lt s' t')
  end.

(** [str(a)] for the scalars whose text the model fixes. *)
Definition str_of_known (a : scalar) : option (list N) :=
  match a with
  | SNone => Some (PyStr.lit "None")
  | SBool b => Some (PyStr.lit (if b then "True" else "False"))
  | SInt n => Some (PyStr.lit (pretty n))
  | SStr s => Some s
  | SFloat _ => None
  end.

(** [d.get(k)] on the items of a dictionary *)
Fixpoint dict_get {V} (k : list N) (d : list (list N * V)) : option V :=
  match d with
  | [] => None
  | (k', v) :: d' => if decide (k' = k) then Some v else dict_get k d'
  end.

(** [d[k] = v]: an existing key keeps its position, a new key goes last. *)
Fixpoint dict_set {V} (k : list N) (v : V) (d : list (list N * V)) : list (list N * V) :=
  match d with
  | [] => [(k, v)]
  | (k', v') :: d' =>
      if decide (k' = k) then (k, v) :: d' else (k', v') :: dict_set k v d'
  end.

(** [d.update(e)] *)
Definition dict_update {V} (e d : list (list N * V)) : list (list N * V) :=
  foldl (λ acc kv, dict_set kv.1 kv.2 acc) d e.

(** [k in d] *)
Definition dict_mem {V} (k : list N) (d : list (list N * V)) : bool :=
  match dict_get k d with Some _ => true | None => false end.

Definition dict_keys {V} (d : list (list N * V)) : list (list N) := d.*1.

(** What an external call gives back: a value or a raised exception. *)
Inductive outcome (A : Type) :=
| Ok (a : A)
| Err (e : exn).
Arguments Ok {A} a.
Arguments Err {A} e.

(** [a < v]: defined between two numbers and between two strings,
    [TypeError] otherwise. *)
Definition py_lt (a : scalar) (v : pyval) : outcome bool :=
  match v with
  | VS b =>
      match num_of a, num_of b with
      | Some x, Some y => Ok (bool_decide (x < y)%Qc)
      | _, _ =>
          match a, b with
          | SStr s, SStr t => Ok (str_lt s t)
          | _, _ => Err TypeError
          end
      end
  | _ => Err TypeError
  end.

(** [a > v] *)
Definition py_gt (a : scalar) (v : pyval) : outcome bool :=
  match v with
  | VS b =>
      match num_of a, num_of b with
      | Some x, Some y => Ok (bool_decide (y < x)%Qc)
      | _, _ =>
          match a, b with
          | SStr s, SStr t => Ok (str_lt t s)
          | _, _ => Err TypeError
          end
      end
  | _ => Err TypeError
  end.

(** A statement either falls through with a value, executes [return],
    or raises. *)
Inductive res (R A : Type) :=
| Val (a : A)
| Return (r : R)
| Raise (e : exn).
Arguments Val {R A} a.
Arguments Return {R A} r.
Arguments Raise {R A} e.

(** Statements of a function returning [R], over a state [S]. *)
Definition M (S R A : Type) : Type := S → res R A * S.

Definition ret {S R A} (a : A) : M S R A := λ s, (Val a, s).

Definition bind {S R A B} (m : M S R A) (f : A → M S R B) : M S R B := λ s,
  match m s with
  | (Val a, s') => f a s'
  | (Return r, s') => (Return r, s')
  | (Raise e, s') => (Raise e, s')
  end.

Declare Scope py_scope.
Delimit Scope py_scope with py.
Notation "x ← y ; z" := (bind y (λ x : _, z))
  (at level 20, y at level 100, z at level 200, only parsing) : py_scope.
Notation "' x ← y ; z" := (bind y (λ x : _, z))
  (at level 20, x pattern, y at level 100, z at level 200, only parsing) : py_scope.
Notation "x ;; z" := (bind x (λ _ : unit, z))
  (at level 100, z at level 200, only parsing, right associativity) : py_scope.
#[local] Open Scope py_scope.

(** [return r] *)
Definition py_return {S R A} (r : R) : M S R A := λ s, (Return r, s).

(** [raise e] *)
Definition py_raise {S R A} (e : exn) : M S R A := λ s, (Raise e, s).

(** [try: body except Exception as e: handler e] *)
Definition try_except {S R A} (body : M S R A) (handler : exn → M S R A) : M S R A :=
  λ s, match body s with
       | (Raise e, s') => handler e s'
       | r => r
       end.

(** A call [f(...)]: the callee's [return] is the value of the call;
    falling off the end of the body returns its last value. *)
Definition call {S R R'} (body : M S R R) : M S R' R :=
  λ s, match body s with
       | (Val r, s') => (Val r, s')
       | (Return r, s') => (Val r, s')
       | (Raise e, s') => (Raise e, s')
       end.

(** Reading and updating the state. *)
Definition get {S R} : M S R S := λ s, (Val s, s).
Definition modify {S R} (f : S → S) : M S R unit := λ s, (Val tt, f s).

(** Running a statement of a smaller state inside a larger one. *)
Definition zoom {S T R A} (proj : T → S) (inj : S → T → T) (m : M S R A) : M T R A :=
  λ t, match m (proj t) with (r, s') => (r, inj s' t) end.

(** The value of an expression that may raise. *)
Definition eval {S R A} (o : outcome A) : M S R A :=
  match o with
  | Ok a => ret a
  | Err e => py_raise e
  end.

(** [for a in l: body a] *)
Fixpoint for_each {S R A} (l : list A) (body : A → M S R unit) : M S R unit :=
  match l with
  | [] => ret tt
  | a :: l' => body a;; for_each l' body
  end.

(** One iteration of a loop whose body uses [continue]: inside
    [iteration], [continue_] ends the iteration. *)
Definition iteration {S R} (body : M S unit unit) : M S R unit := call body.
Definition continue_ {S A} : M S unit A := py_return tt.

End Py.

(** ** [run/graph/graph_builder.py]: the graph and the three merges *)

Module Graph.
Import Py.
#[local] Open Scope py_scope.

(** *** [networkx.MultiDiGraph]

    Nodes in insertion order with their attribute dictionaries; edges
    with their key.  Attribute values are scalars (GraphML values and
    JSON leaves). *)
Record edge := Edge {
  e_src : list N;
  e_dst : list N;
  e_key : scalar;
  e_attrs : list (list N * scalar)
}.

Record graph := MultiDiGraph {
  g_nodes : list (list N * list (list N * scalar));
  g_edges : list edge
}.

Definition empty : graph := MultiDiGraph [] [].

(** [n in G] *)
Definition has_node (n : list N) (g : graph) : bool := dict_mem n (g_nodes g).

(** [G.add_node(n, **attrs)]: a new node is appended, an existing one
    has its attributes updated. *)
Definition add_node (n : list N) (attrs : list (list N * scalar)) (g : graph) : graph :=
  match dict_get n (g_nodes g) with
  | Some old => MultiDiGraph (dict_set n (dict_update attrs old) (g_nodes g)) (g_edges g)
  | None => MultiDiGraph (g_nodes g ++ [(n, attrs)]) (g_edges g)
  end.

Definition ensure_node (n : list N) (g : graph) : graph :=
  if has_node n g then g else MultiDiGraph (g_nodes g ++ [(n, [])]) (g_edges g).

(** The keys of the edges from [u] to [v]. *)
Definition keys_between (u v : list N) (es : list edge) : list scalar :=
  e_key <$> filter (λ e, e_src e = u ∧ e_dst e = v) es.

(** [new_edge_key]: the number of edges from [u] to [v], increased
    while it is already a key. *)
Fixpoint first_free (fuel : nat) (k : Z) (ks : list scalar) : Z :=
  match fuel with
  | O => k
  | S fuel' => if existsb (py_eq (SInt k)) ks then first_free fuel' (k + 1)%Z ks else k
  end.

Definition new_edge_key (u v : list N) (es : list edge) : scalar :=
  let ks := keys_between u v es in
  SInt (first_free (S (length ks)) (Z.of_nat (length ks)) ks).

Fixpoint update_edge (u v : list N) (key : scalar) (attrs : list (list N * scalar))
    (es : list edge) : option (list edge) :=
  match es with
  | [] => None
  | e :: es' =>
      if bool_decide (e_src e = u) && bool_decide (e_dst e = v) && py_eq (e_key e) key
      then Some (Edge u v (e_key e) (dict_update attrs (e_attrs e)) :: es')
      else cons e <$> update_edge u v key attrs es'
  end.

(** [G.add_edge(u, v, key=key, **attrs)]: missing end points are added
    as bare nodes; without a key the edge is new, with the key of an
    existing edge that edge's attributes are updated. *)
Definition add_edge (u v : list N) (key : option scalar) (attrs : list (list N * scalar))
    (g : graph) : graph :=
  let g1 := ensure_node v (ensure_node u g) in
  let k := default (new_edge_key u v (g_edges g1)) key in
  match update_edge u v k attrs (g_edges g1) with
  | Some es => MultiDiGraph (g_nodes g1) es
  | None => MultiDiGraph (g_nodes g1) (g_edges g1 ++ [Edge u v k attrs])
  end.

(** A call [f(pos..., **attrs, k1=v1, ...)]: a keyword given twice, or
    one that names a positional parameter already bound, is a
    [TypeError]. *)
Definition kwargs (positional : list (list N)) (attrs extra : list (list N * scalar))
    : outcome (list (list N * scalar)) :=
  if existsb (λ k, bool_decide (k ∈ positional) || dict_mem k extra) (dict_keys attrs)
  then Err TypeError
  else Ok (attrs ++ extra).

(** [G.add_edge(u, v, **kw)]: the keyword [key] is the edge key. *)
Definition add_edge_kw (u v : list N) (kw : list (list N * scalar)) (g : graph) : graph :=
  add_edge u v (dict_get (PyStr.lit "key") kw)
    (filter (λ kv, kv.1 ≠ PyStr.lit "key") kw) g.

(** *** The tools' outputs *)

(** The graph [nx.read_graphml] reads from Joern's export. *)
Record joern_graph := JoernGraph {
  j_nodes : list (list N * list (list N * scalar));
  j_edges : list (list N * list N * list (list N * scalar))
}.

(** The CodeQL result file: a list of results, each with optional
    [paths]; a path has optional [nodes]; a node has an optional
    [label] and [location]. *)
Record location := Location {
  startLine : option scalar;
  startColumn : option scalar;
  file : option scalar
}.

Record codeql_node := CodeqlNode {
  cq_label : option scalar;
  cq_location : option location
}.

Record codeql_path := CodeqlPath { cq_nodes : option (list codeql_node) }.
Record codeql_result := CodeqlResult { cq_paths : option (list codeql_path) }.

(** The Semgrep result file: [results], each with [check_id],
    [extra.severity], [extra.message] and [start.line]. *)
Record semgrep_extra := SemgrepExtra {
  severity : option scalar;
  message : option scalar
}.

Record semgrep_result := SemgrepResult {
  check_id : option scalar;
  extra : option semgrep_extra;
  start_line_of : option (option scalar)
}.

Record semgrep_output := SemgrepOutput { results : option (list semgrep_result) }.

(** The [scope] dictionary of [build_graph_for_file]: [start_line] and
    [end_line] are set together. *)
Record scope := Scope {
  sc_method_name : option pyval;
  sc_lines : option (pyval * pyval)
}.

(** [if scope:] *)
Definition scope_nonempty (sc : scope) : bool :=
  match sc_method_name sc, sc_lines sc with
  | None, None => false
  | _, _ => true
  end.

(** [x.get(k)] for an optional JSON field. *)
Definition get_or_none (o : option scalar) : scalar := default SNone o.

(** [line < lo or line > hi], the right operand only when needed. *)
Definition outside {R} (line : scalar) (lo hi : pyval) : M graph R bool :=
  below ← eval (py_lt line lo);
  if below then ret true else eval (py_gt line hi).

(** *** [SecurityGraphBuilder._integrate_joern_graph] *)
Definition _integrate_joern_graph {R} (joern : joern_graph) (sc : scope) : M graph R unit :=
  for_each (j_nodes joern) (λ '(node, attrs), iteration (
    (if scope_nonempty sc then
       match sc_method_name sc, dict_get (PyStr.lit "METHOD_NAME") attrs with
       | Some m, Some a => if py_ne a m then continue_ else ret tt
       | _, _ => ret tt
       end;;
       match sc_lines sc, dict_get (PyStr.lit "LINE_NUMBER") attrs with
       | Some (lo, hi), Some line_num =>
           out ← outside line_num lo hi;
           if out then continue_ else ret tt
       | _, _ => ret tt
       end
     else ret tt);;
    let node_type := default (SStr (PyStr.lit "UNKNOWN")) (dict_get (PyStr.lit "TYPE") attrs) in
    kw ← eval (kwargs [PyStr.lit "node_for_adding"] attrs
                 [(PyStr.lit "source", SStr (PyStr.lit "joern"));
                  (PyStr.lit "node_type", node_type)]);
    modify (add_node node kw)));;
  for_each (j_edges joern) (λ '(u, v, attrs),
    g ← get;
    if has_node u g && has_node v g then
      let edge_type := default (SStr (PyStr.lit "UNKNOWN")) (dict_get (PyStr.lit "TYPE") attrs) in
      kw ← eval (kwargs [PyStr.lit "u_for_edge"; PyStr.lit "v_for_edge"] attrs
                   [(PyStr.lit "source", SStr (PyStr.lit "joern"));
                    (PyStr.lit "edge_type", edge_type)]);
      modify (add_edge_kw u v kw)
    else ret tt).

(** [f"codeql_node_{len(self.graph.nodes) + 1}"] and its Semgrep twin *)
Definition fresh_id (prefix : string) (g : graph) : list N :=
  PyStr.lit prefix ++ PyStr.lit (pretty (length (g_nodes g) + 1)%nat).

(** *** [SecurityGraphBuilder._add_taint_flow_path]

    The loop variables [i] and [prev_node_id] are arguments; [total] is
    [len(path['nodes'])]. *)
Fixpoint taint_flow_nodes {R} (total i : nat) (prev_node_id : option (list N))
    (nodes : list codeql_node) : M graph R unit :=
  match nodes with
  | [] => ret tt
  | node :: rest =>
      g ← get;
      let node_id := fresh_id "codeql_node_" g in
      let loc := default (Location None None None) (cq_location node) in
      let node_type :=
        if decide (i = 0%nat) then PyStr.lit "SOURCE"
        else if decide (i = (total - 1)%nat) then PyStr.lit "SINK"
        else PyStr.lit "TAINT_STEP" in
      let node_attrs :=
        [(PyStr.lit "label", default (SStr []) (cq_label node));
         (PyStr.lit "line", get_or_none (startLine loc));
         (PyStr.lit "column", get_or_none (startColumn loc));
         (PyStr.lit "file", get_or_none (file loc));
         (PyStr.lit "source", SStr (PyStr.lit "codeql"));
         (PyStr.lit "node_type", SStr node_type)] in
      modify (add_node node_id node_attrs);;
      match prev_node_id with
      | Some prev =>
          modify (add_edge prev node_id None
                    [(PyStr.lit "edge_type", SStr (PyStr.lit "TAINT_FLOW"));
                     (PyStr.lit "source", SStr (PyStr.lit "codeql"))])
      | None => ret tt
      end;;
      taint_flow_nodes total (S i) (Some node_id) rest
  end.

Definition _add_taint_flow_path {R} (path : codeql_path) : M graph R unit :=
  match cq_nodes path with
  | Some nodes => taint_flow_nodes (length nodes) 0 None nodes
  | None => ret tt
  end.

(** The loop of [_parse_codeql_taint_results] over the loaded results. *)
Definition codeql_taint_results {R} (rs : list codeql_result) : M graph R unit :=
  for_each rs (λ result,
    match cq_paths result with
    | Some paths => for_each paths _add_taint_flow_path
    | None => ret tt
    end).

(** *** [SecurityGraphBuilder._parse_semgrep_results]

    One turn of its loop, for one finding. *)
Definition add_semgrep_result {R} (sc : scope) (result : semgrep_result) : M graph R unit :=
  iteration (
    let line := get_or_none (default None (start_line_of result)) in
    (if scope_nonempty sc then
       match sc_lines sc with
       | Some (lo, hi) =>
           if truthy_scalar line then
             out ← outside line lo hi;
             if out then continue_ else ret tt
           else ret tt
       | None => ret tt
       end
     else ret tt);;
    let pattern_id := get_or_none (check_id result) in
    let ex := default (SemgrepExtra None None) (extra result) in
    g ← get;
    let node_id := fresh_id "semgrep_pattern_" g in
    let node_attrs :=
      [(PyStr.lit "label", pattern_id);
       (PyStr.lit "pattern_id", pattern_id);
       (PyStr.lit "severity", get_or_none (severity ex));
       (PyStr.lit "message", get_or_none (message ex));
       (PyStr.lit "line", line);
       (PyStr.lit "source", SStr (PyStr.lit "semgrep"));
       (PyStr.lit "node_type", SStr (PyStr.lit "SECURITY_PATTERN"))] in
    modify (add_node node_id node_attrs);;
    if truthy_scalar line then
      g' ← get;
      for_each (g_nodes g') (λ '(node, attrs),
        if py_eq (get_or_none (dict_get (PyStr.lit "source") attrs)) (SStr (PyStr.lit "joern"))
           && py_eq (get_or_none (dict_get (PyStr.lit "line") attrs)) line
        then modify (add_edge node_id node None
                       [(PyStr.lit "edge_type", SStr (PyStr.lit "PATTERN_MATCH"));
                        (PyStr.lit "source", SStr (PyStr.lit "semgrep"))])
        else ret tt)
    else ret tt).

(** The loop over the loaded results. *)
Definition semgrep_results {R} (out : semgrep_output) (sc : scope) : M graph R unit :=
  for_each (default [] (results out)) (add_semgrep_result sc).

(** *** Vocabulary of the claims about the merge *)








(** [g'] holds what [g] holds: every node, and every edge (the same
    end points and key; its attributes may have been updated). *)
Definition extends (g g' : graph) : Prop :=
  (∀ n, has_node n g = true → has_node n g' = true)
  ∧ ∀ e, e ∈ g_edges g →
         ∃ e', e' ∈ g_edges g' ∧ e_src e' = e_src e ∧ e_dst e' = e_dst e
               ∧ e_key e' = e_key e.



End Graph.

(** ** The outside world: files, external tools, the clock *)

Module Eff.
Import Py Graph.
#[local] Open Scope py_scope.

(** The functions [process_bug] calls, one per pipeline step. *)
Inductive callee :=
| GetCompleteExtraction
| BuildGraphForFile
| SaveGraph
| ExtractGraphInfo
| FormatGraphInfoToText
| BuildChatCompletionMessages
| BuildPromptText
| LLMInferenceInit
| Generate
| ExtractCodeFromResponse
| IntegrateCode
| EvaluateFix.

#[global] Instance callee_eq_dec : EqDecision callee.
Proof. solve_decision. Defined.

Inductive level := INFO | WARNING | ERROR.

#[global] Instance level_eq_dec : EqDecision level.
Proof. solve_decision. Defined.

(** External tools run as subprocesses or libraries. *)
Inductive tool := Joern | CodeQL | Semgrep | TestRunner | CodeBLEU | Javalang.

(** What can be observed of a run, in order.  [EvMakedirs] and
    [EvWrite] record a directory that has been created and a text that
    has been written in full. *)
Inductive event :=
| EvCall (f : callee)
| EvReturn (f : callee) (v : pyval)
| EvMakedirs (path : list N)
| EvWrite (path : list N) (text : list N)
| EvTool (t : tool)
| EvLog (lvl : level) (msg : string) (arg : list N).

(** The requests to the file system that can fail, and how the
    environment answers a request to write: the file cannot be opened
    (and is left as it was), or it is opened, and so emptied, and the
    write fails leaving some text behind, or the write succeeds. *)
Inductive request :=
| MakeDirs (path : list N)
| ReadFile (path : list N).

Definition request_path (r : request) : list N :=
  match r with
  | MakeDirs p => p
  | ReadFile p => p
  end.

Inductive write_answer :=
| WriteOk
| OpenFails (e : exn)
| WriteFails (e : exn) (remains : list N).

(** The file system (text files by the path as written), a logical
    clock that advances with every request to the outside, and the
    trace. *)
Record world := World {
  files : gmap (list N) (list N);
  now : nat;
  trace : list event
}.

(** A method declaration as [javalang] reports it: its name and the
    line of its position, when it has one. *)
Record method_node := MethodNode {
  m_name : list N;
  m_position : option nat
}.

(** The vulnerability record [get_complete_extraction] builds. *)
Record vuln_info := VulnInfo {
  vi_bug_id : list N;
  vi_cwe_id : option (list N);
  vi_title : scalar;
  vi_description : scalar;
  vi_extended_description : scalar;
  vi_method_name : option (list N);
  vi_start_line : option nat;
  vi_end_line : option nat;
  vi_vulnerable_method : option (list N);
  vi_target_code : scalar;
  vi_before_file : list N;
  vi_after_file : list N;
  vi_package_name : option (list N);
  vi_imports : list (list N);
  vi_vulnerable_code : option (list N);
  vi_before_file_content : option (list N);
  vi_after_file_content : option (list N);
  vi_complete_target_method : option (list N)
}.

(** Everything the model does not compute itself: path arithmetic,
    serialisers, and the answers of the outside world.  An answer may
    depend on the time of the request, so that any sequence of answers
    and failures is some environment. *)
Record env := Env {
  (** [pathlib]'s [/] *)
  path_join : list N → list N → list N;
  (** the template files [SYSTEM_PROMPT_FILE] and [USER_PROMPT_FILE] *)
  system_prompt_file : list N;
  user_prompt_file : list N;
  (** [json.dumps] with the flags of the call site ([ensure_ascii]),
      and the chunks [json.dump] has written when one of them cannot
      be encoded; [nx.write_graphml]; [str] of a float, a list or a
      dictionary *)
  json_dumps : bool → pyval → list N;
  json_dumped_before_error : bool → pyval → list N;
  graphml_dumps : graph → outcome (list N);
  str_other : pyval → list N;
  (** [str.format] for a template with a replacement field that is not
      a plain name *)
  format_general : list N → list (list N * pyval) → outcome (list N);
  (** the value of a code point above ASCII as a decimal digit
      ([Py_UNICODE_TODECIMAL]) *)
  unicode_decimal : N → option N;
  (** whether the request issued at a given time fails, for a path the
      operating system accepts *)
  io_error : request → nat → option exn;
  io_write : list N → nat → write_answer;
  (** [time.time()] *)
  time_time : nat → Qc;
  (** [tempfile.mkdtemp()] *)
  mkdtemp : nat → outcome (list N);
  (** the dataset and the extractor *)
  ext_get_complete_extraction : nat → list N → outcome (option vuln_info);
  (** Joern, CodeQL and Semgrep: what their result files hold when the
      run gets as far as reading them *)
  ext_joern : nat → list N → outcome (option joern_graph);
  ext_codeql : nat → list N → outcome (option (outcome (list codeql_result)));
  ext_semgrep : nat → list N → outcome (option (outcome semgrep_output));
  (** [GraphProcessor.extract_graph_info] and
      [format_graph_info_to_text] *)
  ext_extract_graph_info : nat → graph → vuln_info → list N → outcome pyval;
  ext_format_graph_info : nat → pyval → list N → outcome (list N);
  (** [LLMInference(...)] and [generate] *)
  ext_llm_init : nat → list N → list N → outcome unit;
  ext_generate : nat → option pyval → option (list N) → outcome (option (list N));
  (** [from codebleu import calc_codebleu] and the call
      [calc_codebleu(references, predictions, lang, weights)] *)
  ext_import_codebleu : nat → outcome unit;
  ext_calc_codebleu :
    nat → list pyval → list pyval → list N → Qc * Qc * Qc * Qc → outcome (list (list N * Qc));
  (** [javalang.parse.parse] followed by the class filter: the methods
      of each class declaration, in traversal order *)
  ext_javalang : list N → outcome (list (list method_node));
  (** [re.search(method_pattern, line)] for the pattern built from a
      method name *)
  method_pattern_search : list N → list N → bool;
  (** [_find_semgrep_rule_for_bug], and [run_semgrep] and [run_test] of
      [run/utils/evaluation.py] *)
  ext_find_semgrep_rule : nat → list N → option (list N);
  ext_run_semgrep : nat → list N → list N → outcome bool;
  ext_run_test : nat → list N → outcome bool
}.

(** A path the operating system rejects whatever the state of the
    disk: the empty path ([FileNotFoundError]), a path with a NUL
    character or with a surrogate that does not stand for a byte
    ([ValueError]). *)
Definition bad_path_char (c : N) : bool :=
  (c =? 0)%N || (PyStr.is_surrogate c && negb ((56448 <=? c)%N && (c <=? 56575)%N)).

Definition path_error (path : list N) : option exn :=
  match path with
  | [] => Some OSError
  | _ => if existsb bad_path_char path then Some ValueError else None
  end.

(** The regular file at a path. *)
Definition file_at (fs : gmap (list N) (list N)) (path : list N) : option (list N) :=
  match path_error path with
  | Some _ => None
  | None => fs !! path
  end.

(** How a request to write ends: the text is written, or an exception
    is raised with the file untouched, or with the file left holding
    some other text. *)
Inductive write_status :=
| Written
| Untouched (e : exn)
| Damaged (e : exn) (remains : list N).

Section Primitives.
Context (E : env).

Definition tick (w : world) : world := World (files w) (S (now w)) (trace w).

(** Record an event. *)
Definition emit {R} (e : event) : M world R unit :=
  modify (λ w, World (files w) (now w) (trace w ++ [e])).

(** [logger.info], [logger.warning], [logger.error] *)
Definition log {R} (lvl : level) (msg : string) (arg : list N) : M world R unit :=
  emit (EvLog lvl msg arg).

(** Ask the outside world, which answers with a value or an exception. *)
Definition ask {R A} (oracle : nat → outcome A) : M world R A :=
  λ w, match oracle (now w) with
       | Ok a => (Val a, tick w)
       | Err e => (Raise e, tick w)
       end.

(** Whether a request issued at time [t] fails. *)
Definition fails (r : request) (t : nat) : option exn :=
  match path_error (request_path r) with
  | Some e => Some e
  | None => io_error E r t
  end.

(** [os.makedirs(path, exist_ok=True)] *)
Definition makedirs {R} (path : list N) : M world R unit :=
  ask (λ t, match fails (MakeDirs path) t with
            | Some e => Err e
            | None => Ok tt
            end);;
  emit (EvMakedirs path).

(** Writing [text] to a file opened with mode [w], at time [t].  The
    text is encoded before anything is written: when it cannot be, the
    opened file is left with [unencoded]. *)
Definition write_status_at (unencoded path text : list N) (t : nat) : write_status :=
  match path_error path with
  | Some e => Untouched e
  | None =>
      match io_write E path t with
      | OpenFails e => Untouched e
      | WriteFails e remains =>
          if PyStr.encodable text then Damaged e remains else Damaged ValueError unencoded
      | WriteOk =>
          if PyStr.encodable text then Written else Damaged ValueError unencoded
      end
  end.

Definition write_with {R} (unencoded path text : list N) : M world R unit :=
  λ w, match write_status_at unencoded path text (now w) with
       | Written =>
           (Val tt, World (<[path := text]> (files w)) (S (now w))
                      (trace w ++ [EvWrite path text]))
       | Untouched e => (Raise e, tick w)
       | Damaged e remains =>
           (Raise e, World (<[path := remains]> (files w)) (S (now w)) (trace w))
       end.

(** [with open(path, 'w', encoding='utf-8') as f: f.write(text)] *)
Definition write_text {R} (path text : list N) : M world R unit :=
  write_with [] path text.

(** What reading a file gives at time [t]. *)
Definition read_at (fs : gmap (list N) (list N)) (path : list N) (t : nat)
    : outcome (list N) :=
  match fails (ReadFile path) t with
  | Some e => Err e
  | None =>
      match fs !! path with
      | Some text => Ok (PyStr.universal_newlines text)
      | None => Err OSError
      end
  end.

(** [with open(path, 'r', encoding='utf-8') as f: f.read()] *)
Definition read_text {R} (path : list N) : M world R (list N) :=
  λ w, match read_at (files w) path (now w) with
       | Ok text => (Val text, tick w)
       | Err e => (Raise e, tick w)
       end.

(** [os.path.exists(path)] for a file *)
Definition path_exists {R} (path : list N) : M world R bool :=
  w ← get;
  ret (match file_at (files w) path with Some _ => true | None => false end).

(** [json.dump(v, f, indent=2, ensure_ascii=...)] into a fresh file *)
Definition dump_json {R} (path : list N) (ensure_ascii : bool) (v : pyval) : M world R unit :=
  write_with (json_dumped_before_error E ensure_ascii v) path (json_dumps E ensure_ascii v).

End Primitives.

(** *** Functions with mutable locals

    A function whose local object is updated in place and read again
    after an exception (the [result] dictionary, [self.graph]) runs
    over the pair of that object and the world. *)
Definition in_world {L R A} (m : M world R A) : M (L * world) R A :=
  zoom snd (λ w s, (s.1, w)) m.

Definition on_local {L R A} (m : M L R A) : M (L * world) R A :=
  zoom fst (λ l s, (l, s.2)) m.

Definition get_local {L R} : M (L * world) R L := on_local get.

Definition set_local {L R} (f : L → L) : M (L * world) R unit := on_local (modify f).

Definition with_local {L R R'} (init : L) (body : M (L * world) R R) : M world R' R :=
  λ w, match call body (init, w) with
       | (r, (_, w')) => (r, w')
       end.

(** The texts written in a trace, in order. *)
Definition writes (tr : list event) : list (list N * list N) :=
  omap (λ e, match e with EvWrite p t => Some (p, t) | _ => None end) tr.

(** The calls in a trace, in order. *)
Definition calls (tr : list event) : list callee :=
  omap (λ e, match e with EvCall f => Some f | _ => None end) tr.

End Eff.

(** ** [run/prompting/prompt_builder.py] *)

Module Prompt.
Import Py Eff.
#[local] Open Scope py_scope.

(** [USE_GRAPH_INFO] of [run/config.py] *)
Definition USE_GRAPH_INFO : bool := true.

Section Format.
Context (E : env).

(** [str(v)], which is also [format(v, "")] *)
Definition py_str (v : pyval) : list N :=
  match v with
  | VS a => match str_of_known a with Some s => s | None => str_other E v end
  | _ => str_other E v
  end.

(** *** [str.format] with keyword arguments only

    The template is scanned once, left to right.  [{{] and [}}] are
    literal braces; [{name}] is replaced by [str] of the argument
    [name]; text is copied.  A field that is empty or a number asks for
    a positional argument, of which there is none; a number that does
    not fit [Py_ssize_t] is rejected while the field is read.  A field
    with a conversion, a format specification, an attribute or an index
    is not modelled here: the whole call is then left to
    [format_general]. *)
Inductive fmt_result :=
| FText (s : list N)
| FError (e : exn)
| FGeneral.

Inductive mode :=
| MText
| MOpen
| MField (name_rev : list N)
| MClose.

(** [Py_UNICODE_TODECIMAL] *)
Definition to_decimal (c : N) : option N :=
  if c <? 128 then (if (48 <=? c) && (c <=? 57) then Some (c - 48) else None)
  else unicode_decimal E c.

(** [PY_SSIZE_T_MAX] of a 64-bit build *)
Definition PY_SSIZE_T_MAX : N := 9223372036854775807.

(** [get_integer] of [unicode_format.h]: the field name as an index. *)
Inductive field_index :=
| NotIndex
| Index (n : N)
| TooManyDigits.

Fixpoint get_integer (accumulator : N) (s : list N) : field_index :=
  match s with
  | [] => Index accumulator
  | c :: s' =>
      match to_decimal c with
      | None => NotIndex
      | Some digitval =>
          if (PY_SSIZE_T_MAX - digitval) / 10 <? accumulator then TooManyDigits
          else get_integer (accumulator * 10 + digitval) s'
      end
  end.

(** [!], [:], [.], [[], []] and [{] inside a field *)
Definition is_special (c : N) : bool :=
  (c =? 33) || (c =? 58) || (c =? 46) || (c =? 91) || (c =? 93) || (c =? 123).

Definition prepend (t : list N) (r : fmt_result) : fmt_result :=
  match r with
  | FText s => FText (t ++ s)
  | other => other
  end.

Definition render_field (kwargs : list (list N * pyval)) (name : list N) (rest : fmt_result)
    : fmt_result :=
  if existsb is_special name then FGeneral
  else match get_integer 0 name with
       | Index _ => FError IndexError
       | TooManyDigits => FError ValueError
       | NotIndex =>
           match dict_get name kwargs with
           | Some v => prepend (py_str v) rest
           | None => FError (KeyError name)
           end
       end.

Fixpoint scan (kwargs : list (list N * pyval)) (m : mode) (s : list N) : fmt_result :=
  match s with
  | [] =>
      match m with
      | MText => FText []
      | _ => FError ValueError
      end
  | c :: s' =>
      match m with
      | MText =>
          if c =? 123 then scan kwargs MOpen s'
          else if c =? 125 then scan kwargs MClose s'
          else prepend [c] (scan kwargs MText s')
      | MOpen =>
          if c =? 123 then prepend [123] (scan kwargs MText s')
          else if c =? 125 then render_field kwargs [] (scan kwargs MText s')
          else scan kwargs (MField [c]) s'
      | MField name_rev =>
          if c =? 125 then render_field kwargs (rev name_rev) (scan kwargs MText s')
          else scan kwargs (MField (c :: name_rev)) s'
      | MClose =>
          if c =? 125 then prepend [125] (scan kwargs MText s')
          else FError ValueError
      end
  end.

(** [template.format] called with keyword arguments *)
Definition str_format (template : list N) (kwargs : list (list N * pyval)) : outcome (list N) :=
  match scan kwargs MText template with
  | FText s => Ok s
  | FError e => Err e
  | FGeneral => format_general E template kwargs
  end.

(** *** [PromptBuilder] *)

Record PromptBuilder := {
  system_prompt : list N;
  user_prompt : list N
}.

(** [_get_default_system_prompt] *)
Definition _get_default_system_prompt : list N :=
  PyStr.lit "당신은 취약점 수정 전문가입니다. Java 코드의 보안 취약점을 안전하게 수정해야 합니다.
취약점이 있는 코드와 그 정보를 제공받을 것입니다. 취약점을 수정한 코드를 제공해주세요.
수정된 코드는 기능을 유지하면서 보안 취약점을 제거해야 합니다.".

(** [_get_default_user_prompt] *)
Definition _get_default_user_prompt : list N :=
  PyStr.lit "다음은 취약점이 있는 Java 코드입니다:

```java
{vulnerable_method}
```

이 코드는 다음과 같은 취약점이 있습니다:
- 취약점 ID: {cwe_id}
- 취약점 설명: {description}

{graph_info}

취약점을 수정한 코드를 제공해주세요. 코드는 전체 메소드를 포함해야 합니다.".

(** [_load_template] for the two template files, whose names select
    the fallback. *)
Definition _load_template {R} (template_path fallback : list N) : M world R (list N) :=
  call (try_except
    (text ← read_text E template_path; py_return text)
    (λ _, log ERROR "template load error" template_path;; py_return fallback)).

(** [PromptBuilder.__init__] *)
Definition PromptBuilder_init {R} : M world R PromptBuilder :=
  sys ← _load_template (system_prompt_file E) _get_default_system_prompt;
  usr ← _load_template (user_prompt_file E) _get_default_user_prompt;
  ret {| system_prompt := sys; user_prompt := usr |}.

(** [vuln_info.get(key, '')] *)
Definition get_or_empty (key : string) (vuln_info : list (list N * pyval)) : pyval :=
  default (VStr []) (dict_get (PyStr.lit key) vuln_info).

(** The system prompt [build_prompt] substitutes for the [1b] models. *)
Definition system_prompt_1b : list N :=
  PyStr.lit "당신은 취약점 수정 전문가입니다. 다음 Java 코드의 보안 취약점을 수정해주세요.".

(** [PromptBuilder.build_prompt] *)
Definition build_prompt (self : PromptBuilder) (vuln_info : list (list N * pyval))
    (graph_info_text : option (list N)) (model_size : list N)
    : outcome (list (list N * pyval)) :=
  let system :=
    if decide (model_size = PyStr.lit "1b") then system_prompt_1b else system_prompt self in
  let graph_info :=
    match graph_info_text with
    | Some text => if USE_GRAPH_INFO && negb (bool_decide (text = [])) then text else []
    | None => []
    end in
  match str_format (user_prompt self)
          [(PyStr.lit "vulnerable_method", get_or_empty "vulnerable_method" vuln_info);
           (PyStr.lit "cwe_id", get_or_empty "cwe_id" vuln_info);
           (PyStr.lit "description", get_or_empty "description" vuln_info);
           (PyStr.lit "graph_info", VStr graph_info)] with
  | Ok user => Ok [(PyStr.lit "system", VStr system); (PyStr.lit "user", VStr user)]
  | Err e => Err e
  end.

(** [prompt["system"]], [prompt["user"]] *)
Definition item (key : string) (d : list (list N * pyval)) : outcome pyval :=
  match dict_get (PyStr.lit key) d with
  | Some v => Ok v
  | None => Err (KeyError (PyStr.lit key))
  end.

(** [PromptBuilder.build_chat_completion_messages] *)
Definition build_chat_completion_messages (self : PromptBuilder)
    (vuln_info : list (list N * pyval)) (graph_info_text : option (list N))
    (model_size : list N) : outcome pyval :=
  match build_prompt self vuln_info graph_info_text model_size with
  | Ok prompt =>
      match item "system" prompt, item "user" prompt with
      | Ok sys, Ok usr =>
          Ok (VList [VDict [(PyStr.lit "role", VStr (PyStr.lit "system"));
                            (PyStr.lit "content", sys)];
                     VDict [(PyStr.lit "role", VStr (PyStr.lit "user"));
                            (PyStr.lit "content", usr)]])
      | Err e, _ => Err e
      | _, Err e => Err e
      end
  | Err e => Err e
  end.

(** [PromptBuilder.build_prompt_text] *)
Definition build_prompt_text (self : PromptBuilder)
    (vuln_info : list (list N * pyval)) (graph_info_text : option (list N))
    (model_size : list N) : outcome (list N) :=
  match build_prompt self vuln_info graph_info_text model_size with
  | Ok prompt =>
      match item "system" prompt, item "user" prompt with
      | Ok sys, Ok usr =>
          Ok (PyStr.lit "[SYSTEM]
" ++ py_str sys ++ PyStr.lit "

[USER]
" ++ py_str usr ++ PyStr.lit "

[ASSISTANT]
")
      | Err e, _ => Err e
      | _, Err e => Err e
      end
  | Err e => Err e
  end.

End Format.

(** The claim's wording: a template is text without braces and
    placeholders; replacing the placeholders gives the prompt. *)
Inductive placeholder := P_vulnerable_method | P_cwe_id | P_description | P_graph_info.

Definition placeholder_name (p : placeholder) : string :=
  match p with
  | P_vulnerable_method => "vulnerable_method"
  | P_cwe_id => "cwe_id"
  | P_description => "description"
  | P_graph_info => "graph_info"
  end.

Inductive segment :=
| Text (s : list N)
| Hole (p : placeholder).

(** A text between placeholders has no brace. *)
Definition no_brace (s : list N) : bool :=
  forallb (λ c, negb (c =? 123) && negb (c =? 125)) s.

Definition well_formed (segs : list segment) : bool :=
  forallb (λ sg, match sg with Text s => no_brace s | Hole _ => true end) segs.

(** The template text of a segment list. *)
Definition template_of (segs : list segment) : list N :=
  concat ((λ sg, match sg with
                 | Text s => s
                 | Hole p => [123] ++ PyStr.lit (placeholder_name p) ++ [125]
                 end) <$> segs).

(** The segments with each placeholder replaced. *)
Definition filled (E : env) (vuln_info : list (list N * pyval))
    (graph_info_text : option (list N)) (segs : list segment) : list N :=
  concat ((λ sg, match sg with
                 | Text s => s
                 | Hole P_graph_info => default [] graph_info_text
                 | Hole p =>
                     py_str E (default (VStr []) (dict_get (PyStr.lit (placeholder_name p)) vuln_info))
                 end) <$> segs).

End Prompt.

(** ** [run/utils/file_utils.py] *)

Module FileUtils.
Import PyStr Py Eff.
#[local] Open Scope py_scope.

(** [line.count('{') - line.count('}')] *)
Definition brace_delta (line : list N) : Z :=
  (Z.of_nat (count 123 line) - Z.of_nat (count 125 line))%Z.

(** The loop [for i in range(start_pos-1, len(lines))] of
    [find_method_in_file], entered at index [i] with the lines from [i]
    on: the [end_pos] it sets when it reaches [break]. *)
Fixpoint scan_braces (start_pos i : nat) (brace_count : Z) (rest : list (list N))
    : option nat :=
  match rest with
  | [] => None
  | line :: rest' =>
      let brace_count' := (brace_count + brace_delta line)%Z in
      if (brace_count' <=? 0)%Z && bool_decide (start_pos - 1 < i)%nat
      then Some (i + 1)%nat
      else scan_braces start_pos (S i) brace_count' rest'
  end.

(** [end_pos] after the loop: [start_pos] unless the loop set it. *)
Definition method_end (lines : list (list N)) (start_pos : nat) : nat :=
  default start_pos
    (scan_braces start_pos (start_pos - 1) 0 (drop (start_pos - 1) lines)).

(** [(start_pos, end_pos, '\n'.join(lines[start_pos-1:end_pos]))] *)
Definition method_span (lines : list (list N)) (start_pos : nat) : nat * nat * list N :=
  let end_pos := method_end lines start_pos in
  (start_pos, end_pos, join [10] (slice (start_pos - 1) end_pos lines)).

(** The two nested loops over the classes and their methods: the first
    method of that name. *)
Fixpoint first_method (classes : list (list method_node)) (method_name : list N)
    : option method_node :=
  match classes with
  | [] => None
  | methods :: classes' =>
      match filter (λ m, m_name m = method_name) methods with
      | m :: _ => Some m
      | [] => first_method classes' method_name
      end
  end.

Section WithEnv.
Context (E : env).

(** The loop [for i, line in enumerate(lines)]: the index of the first
    line the method pattern matches. *)
Fixpoint first_match (method_name : list N) (i : nat) (lines : list (list N)) : option nat :=
  match lines with
  | [] => None
  | line :: lines' =>
      if method_pattern_search E method_name line then Some i
      else first_match method_name (S i) lines'
  end.

(** [read_file] *)
Definition read_file {R} (file_path : list N) : M world R (option (list N)) :=
  call (try_except
    (text ← read_text E file_path; py_return (Some text))
    (λ _, log ERROR "file read error" file_path;; py_return None)).

(** [write_file] *)
Definition write_file {R} (file_path content : list N) : M world R bool :=
  call (try_except
    (makedirs E (dirname file_path);;
     write_text E file_path content;;
     py_return true)
    (λ _, log ERROR "file write error" file_path;; py_return false)).

(** [find_method_in_file]; [None] stands for the triple
    [(None, None, None)].  The method name is a [str]. *)
Definition find_method_in_file {R} (file_path method_name : list N)
    : M world R (option (nat * nat * list N)) :=
  call (try_except
    (file_content ← read_file file_path;
     match file_content with
     | None | Some [] => py_return None
     | Some content =>
         try_except
           (classes ← eval (ext_javalang E content);
            match first_method classes method_name with
            | Some method_declaration =>
                start_pos ← match m_position method_declaration with
                            | Some line => ret line
                            | None => py_raise (AttributeError "line")
                            end;
                if decide (start_pos = 0%nat) then ret tt
                else py_return (Some (method_span (splitlines content) start_pos))
            | None => ret tt
            end)
           (λ _, log WARNING "javalang parse error, trying the regular expression" []);;
         let lines := splitlines content in
         match first_match method_name 0 lines with
         | Some i => py_return (Some (method_span lines (i + 1)))
         | None => py_return None
         end
     end)
    (λ _, log ERROR "method lookup error" file_path;; py_return None)).

(** [replace_method_in_file]; the new method code is a [str]. *)
Definition replace_method_in_file {R} (file_path method_name new_method_code : list N)
    (output_path : option (list N)) : M world R bool :=
  call (try_except
    (found ← find_method_in_file file_path method_name;
     match found with
     | None => log ERROR "method not found" method_name;; py_return false
     | Some (start_line, end_line, _) =>
         file_content ← read_file file_path;
         match file_content with
         | None | Some [] => py_return false
         | Some content =>
             let lines := splitlines content in
             let new_lines :=
               take (start_line - 1) lines ++ splitlines new_method_code ++ drop end_line lines in
             let new_content := join [10] new_lines in
             let target_path :=
               match output_path with
               | Some p => if bool_decide (p = []) then file_path else p
               | None => file_path
               end in
             ok ← write_file target_path new_content;
             py_return ok
         end
     end)
    (λ _, log ERROR "method replacement error" file_path;; py_return false)).

(** *** Vocabulary of the claims about locating a method *)

(** The first method of that name among the methods of the class
    declarations, in the order of the traversal. *)
Definition first_named (classes : list (list method_node)) (method_name : list N)
    (m : method_node) : Prop :=
  ∃ before after,
    concat classes = before ++ m :: after
    ∧ m_name m = method_name
    ∧ ∀ m', m' ∈ before → m_name m' ≠ method_name.

(** The parser locates the method on [line]: the file parses, and the
    first method of that name has a position, on that line. *)
Definition parser_locates (content method_name : list N) (line : nat) : Prop :=
  ∃ classes m,
    ext_javalang E content = Ok classes
    ∧ first_named classes method_name m
    ∧ m_position m = Some line
    ∧ (0 < line)%nat.

(** The regular expression locates the method on [line] (1-based): it
    is the first line the method pattern matches. *)
Definition pattern_locates (lines : list (list N)) (method_name : list N) (line : nat)
    : Prop :=
  ∃ i text,
    line = S i
    ∧ lines !! i = Some text
    ∧ method_pattern_search E method_name text = true
    ∧ ∀ j text', (j < i)%nat → lines !! j = Some text' →
                 method_pattern_search E method_name text' = false.

End WithEnv.

(** The opening braces minus the closing braces on some lines. *)
Fixpoint net_braces (ls : list (list N)) : Z :=
  match ls with
  | [] => 0
  | line :: ls' =>
      (Z.of_nat (length (filter (λ c : N, c = 123%N) line))
       - Z.of_nat (length (filter (λ c : N, c = 125%N) line))
       + net_braces ls')%Z
  end.

(** The lines [a+1 .. b] (1-based, inclusive). *)
Definition lines_between (lines : list (list N)) (a b : nat) : list (list N) :=
  take (b - a) (drop a lines).

(** Brace counting from the line [start]: the end is the first later
    line at which the braces opened from the start line on are all
    closed, and the start line itself when there is no such line. *)
Definition closes_at (lines : list (list N)) (start end_pos : nat) : Prop :=
  ((start < end_pos ≤ length lines)%nat
   ∧ (net_braces (lines_between lines (start - 1) end_pos) ≤ 0)%Z
   ∧ ∀ e, (start < e < end_pos)%nat →
          (0 < net_braces (lines_between lines (start - 1) e))%Z)
  ∨ (end_pos = start
     ∧ ∀ e, (start < e ≤ length lines)%nat →
            (0 < net_braces (lines_between lines (start - 1) e))%Z).

End FileUtils.

(** ** [run/utils/evaluation.py], [run/evaluation/code_integrator.py],
    [run/evaluation/evaluator.py] *)

Module Evaluation.
Import PyStr Py Eff.
#[local] Open Scope py_scope.

(** [(0.25, 0.25, 0.25, 0.25)] *)
Definition codebleu_weights : Qc * Qc * Qc * Qc :=
  (Q2Qc (1 # 4), Q2Qc (1 # 4), Q2Qc (1 # 4), Q2Qc (1 # 4)).

(** [None] or a float, as a JSON value *)
Definition score_value (score : option Qc) : pyval :=
  match score with
  | Some q => VFloat q
  | None => VNone
  end.

(** The [result] dictionary of [evaluate_fix] as it is created, and as
    it is once a score (or [None]) has been stored. *)
Definition initial_result (bug_id : list N) : list (list N * pyval) :=
  [(lit "bug_id", VStr bug_id); (lit "code_quality", VNone); (lit "details", VDict [])].

Definition scored_result (bug_id : list N) (score : option Qc) : list (list N * pyval) :=
  [(lit "bug_id", VStr bug_id);
   (lit "code_quality", score_value score);
   (lit "details", VDict [(lit "code_quality", VDict [(lit "code_bleu", score_value score)])])].

(** The events of the Semgrep check and of the test run. *)
Definition after_return (e : event) : Prop :=
  e = EvTool Semgrep ∨ e = EvTool TestRunner.

Section WithEnv.
Context (E : env).

(** [calculate_code_bleu]: the score, or [None]. *)
Definition calculate_code_bleu {R} (generated_code reference_code : pyval)
    : M world R (option Qc) :=
  call (try_except
    (ask (ext_import_codebleu E);;
     emit (EvTool CodeBLEU);;
     result ← ask (λ t, ext_calc_codebleu E t [reference_code] [generated_code]
                          (lit "java") codebleu_weights);
     match dict_get (lit "codebleu") result with
     | Some score => py_return (Some score)
     | None => py_raise (KeyError (lit "codebleu"))
     end)
    (λ e,
       if is_ImportError e
       then log ERROR "CodeBLEU library not found" [];; py_return None
       else log ERROR "CodeBLEU computation error" [];; py_return None)).

(** [CodeIntegrator.integrate_code]; [results_dir] is
    [self.results_dir]. *)
Definition integrate_code {R} (results_dir : option (list N)) (generated_code : list N)
    (vuln_info : option vuln_info) (output_dir : option (list N))
    : M world R (bool * option (list N)) :=
  call (
    match vuln_info with
    | Some vi =>
        if bool_decide (generated_code = []) then
          log ERROR "nothing to integrate" [];; py_return (false, None)
        else
          let bug_id := vi_bug_id vi in
          if bool_decide (bug_id = []) then
            log ERROR "no bug id to integrate for" [];; py_return (false, None)
          else
            let target_dir :=
              match output_dir, results_dir with
              | Some (c :: d), _ => c :: d
              | _, Some r => path_join E r bug_id
              | _, None => path_join E (lit "results") bug_id
              end in
            makedirs E target_dir;;
            let output_file := path_join E target_dir (lit "fixed.java") in
            try_except
              (write_text E output_file generated_code;;
               log INFO "generated code saved" output_file;;
               py_return (true, Some output_file))
              (λ _, log ERROR "code save error" output_file;; py_return (false, None))
    | None => log ERROR "nothing to integrate" [];; py_return (false, None)
    end).

(** [return result] *)
Definition return_result {A} : M (list (list N * pyval) * world) (list (list N * pyval)) A :=
  result ← get_local;
  py_return result.

(** [result[key] = v] *)
Definition set_result {R} (key : string) (v : pyval) : M (list (list N * pyval) * world) R unit :=
  set_local (dict_set (lit key) v).

(** [result['details'][key] = v] *)
Definition set_detail {R} (key : string) (v : pyval) : M (list (list N * pyval) * world) R unit :=
  set_local (λ result,
    match dict_get (lit "details") result with
    | Some (VDict details) => dict_set (lit "details") (VDict (dict_set (lit key) v details)) result
    | _ => result
    end).

(** The statements of [evaluate_fix] after its first [return result]
    at the top level: the Semgrep check, a second CodeBLEU computation,
    the test run, and saving the result. *)
Definition evaluate_fix_rest (results_dir bug_id fixed_file original_file : list N)
    (target_file : option (list N)) (project_dir : option (list N))
    : M (list (list N * pyval) * world) (list (list N * pyval)) unit :=
  try_except
    (rule ← in_world (ask (λ t, Ok (ext_find_semgrep_rule E t bug_id)));
     match rule with
     | Some rule_file =>
         in_world (emit (EvTool Semgrep));;
         orig_vuln_found ← in_world (ask (λ t, ext_run_semgrep E t original_file rule_file));
         in_world (emit (EvTool Semgrep));;
         fixed_vuln_found ← in_world (ask (λ t, ext_run_semgrep E t fixed_file rule_file));
         set_result "security" (VBool (orig_vuln_found && negb fixed_vuln_found));;
         set_detail "security"
           (VDict [(lit "original_vulnerable", VBool orig_vuln_found);
                   (lit "fixed_vulnerable", VBool fixed_vuln_found);
                   (lit "rule_file", VStr rule_file)])
     | None => in_world (log WARNING "no Semgrep rule" bug_id)
     end)
    (λ _, in_world (log ERROR "security evaluation error" []));;
  match target_file with
  | Some tf =>
      ex ← in_world (path_exists tf);
      if ex then
        try_except
          (fixed_code ← in_world (read_text E fixed_file);
           target_code ← in_world (read_text E tf);
           score ← in_world (calculate_code_bleu (VStr fixed_code) (VStr target_code));
           set_result "code_quality" (score_value score);;
           set_detail "code_quality"
             (VDict [(lit "code_bleu", score_value score); (lit "target_file", VStr tf)]))
          (λ _, in_world (log ERROR "code quality evaluation error" []))
      else ret tt
  | None => ret tt
  end;;
  match project_dir with
  | Some dir =>
      try_except
        (in_world (emit (EvTool TestRunner));;
         success ← in_world (ask (λ t, ext_run_test E t dir));
         set_result "functionality" (VBool success);;
         set_result "soundness" (VBool success);;
         set_detail "test"
           (VDict [(lit "success", VBool success); (lit "project_dir", VStr dir)]))
        (λ _, in_world (log ERROR "test evaluation error" []);;
              set_detail "test_error" (VStr []))
  | None => in_world (log INFO "Skipping test phase - no project directory provided" [])
  end;;
  result ← get_local;
  in_world (call (try_except
    (makedirs E (path_join E results_dir (lit "evaluations"));;
     dump_json E (path_join E (path_join E results_dir (lit "evaluations"))
                    (bug_id ++ lit "_evaluation.json")) false (VDict result);;
     py_return tt)
    (λ _, log ERROR "evaluation result save error" [];; py_return tt)));;
  return_result.

(** [VulnerabilityFixEvaluator.evaluate_fix]; [results_dir] is
    [self.results_dir], [target_code] is a [str] or [None].
    [calculate_code_bleu] returns a float or [None], never a
    dictionary, so the [isinstance(code_bleu_score, dict)] branches are
    not taken.  The class has no method [_generate_html_report]: the
    handler of the CodeBLEU block raises [AttributeError] when it looks
    the method up. *)
Definition evaluate_fix {R} (results_dir bug_id fixed_file original_file : list N)
    (target_code : option (list N)) (project_dir : option (list N))
    : M world R (list (list N * pyval)) :=
  with_local (initial_result bug_id)
    (in_world (log INFO "Starting CodeBLEU evaluation" bug_id);;
     let result_dir := path_join E (path_join E results_dir bug_id) (lit "evaluation") in
     in_world (makedirs E result_dir);;
     fixed_exists ← in_world (path_exists fixed_file);
     (if fixed_exists then ret tt
      else in_world (log ERROR "fixed file does not exist" fixed_file);; return_result);;
     try_except
       (in_world (
          original_code ← read_text E original_file;
          log INFO "Original code loaded" [];;
          write_text E (path_join E result_dir (lit "original_code.java")) original_code))
       (λ _, in_world (log ERROR "original code load error" []));;
     fixed_code ← try_except
       (in_world (
          fixed_code ← read_text E fixed_file;
          log INFO "Fixed code loaded" [];;
          write_text E (path_join E result_dir (lit "generated_code.java")) fixed_code;;
          ret fixed_code))
       (λ _, in_world (log ERROR "fixed code load error" []);; return_result);
     target ← match target_code with
       | Some code => ret (code, None)
       | None =>
           let target_file := replace (lit "before.java") (lit "after.java") original_file in
           target_exists ← in_world (path_exists target_file);
           if target_exists then
             try_except
               (in_world (
                  code ← read_text E target_file;
                  log INFO "Target code loaded" target_file;;
                  ret (code, Some target_file)))
               (λ _, in_world (log ERROR "target code load error" []);; return_result)
           else in_world (log ERROR "target file does not exist" target_file);; return_result
       end;
     let '(target_code, target_file) := target in
     try_except
       (in_world (write_text E (path_join E result_dir (lit "target_code.java")) target_code))
       (λ _, in_world (log ERROR "target code save error" []));;
     try_except
       (code_bleu_score ← in_world (calculate_code_bleu (VStr fixed_code) (VStr target_code));
        set_result "code_quality" (score_value code_bleu_score);;
        set_detail "code_quality" (VDict [(lit "code_bleu", score_value code_bleu_score)]);;
        in_world (log INFO "CodeBLEU score" []);;
        in_world (dump_json E (path_join E result_dir (lit "codebleu_result.json")) true
                    (VDict [(lit "codebleu", score_value code_bleu_score)])))
       (λ _,
          in_world (log ERROR "CodeBLEU computation error" []);;
          py_raise (AttributeError "_generate_html_report");;
          result ← get_local;
          in_world (dump_json E (path_join E result_dir (lit "evaluation_summary.json")) true
                      (VDict result)));;
     return_result;;
     evaluate_fix_rest results_dir bug_id fixed_file original_file target_file project_dir;;
     return_result).

End WithEnv.

End Evaluation.

(** ** [SecurityGraphBuilder.build_graph_for_file] and [save_graph] *)

Module GraphBuilder.
Import PyStr Py Graph Eff.
#[local] Open Scope py_scope.

(** The [scope] dictionary: [method_name] when it is truthy, the two
    lines when both are. *)
Definition make_scope (method_name : option (list N)) (start_line end_line : option nat)
    : scope :=
  Scope
    (match method_name with
     | Some name => if bool_decide (name = []) then None else Some (VStr name)
     | None => None
     end)
    (match start_line, end_line with
     | Some s, Some e =>
         if bool_decide (s = 0%nat) || bool_decide (e = 0%nat) then None
         else Some (VInt (Z.of_nat s), VInt (Z.of_nat e))
     | _, _ => None
     end).

Section WithEnv.
Context (E : env).

(** [_build_joern_cpg].  The request to Joern stands for the script,
    the two commands and reading [cpg.graphml]; it answers [None] on
    every path that logs an error and returns. *)
Definition _build_joern_cpg {R} (file_path : list N) (sc : scope) : M (graph * world) R unit :=
  in_world (log INFO "Joern CPG" file_path);;
  try_except
    (in_world (emit (EvTool Joern));;
     answer ← in_world (ask (λ t, ext_joern E t file_path));
     match answer with
     | Some joern_graph => on_local (_integrate_joern_graph joern_graph sc)
     | None => in_world (log ERROR "Joern run failed" [])
     end)
    (λ _, in_world (log ERROR "Joern CPG error" [])).

(** [_build_codeql_taint_flow] with [_parse_codeql_taint_results]: the
    request to CodeQL stands for the database, the query and the check
    that the result file exists; its answer is what loading that file
    gives. *)
Definition _build_codeql_taint_flow {R} (file_path : list N) (sc : scope)
    : M (graph * world) R unit :=
  in_world (log INFO "CodeQL taint flow" file_path);;
  try_except
    (in_world (emit (EvTool CodeQL));;
     answer ← in_world (ask (λ t, ext_codeql E t file_path));
     match answer with
     | Some loaded =>
         try_except
           (rs ← eval loaded; on_local (codeql_taint_results rs))
           (λ _, in_world (log ERROR "CodeQL result parse error" []))
     | None => in_world (log ERROR "CodeQL run failed" [])
     end)
    (λ _, in_world (log ERROR "CodeQL taint flow error" [])).

(** [_build_semgrep_patterns] with [_parse_semgrep_results] *)
Definition _build_semgrep_patterns {R} (file_path : list N) (sc : scope)
    : M (graph * world) R unit :=
  in_world (log INFO "Semgrep patterns" file_path);;
  try_except
    (in_world (emit (EvTool Semgrep));;
     answer ← in_world (ask (λ t, ext_semgrep E t file_path));
     match answer with
     | Some loaded =>
         try_except
           (out ← eval loaded; on_local (semgrep_results out sc))
           (λ _, in_world (log ERROR "Semgrep result parse error" []))
     | None => in_world (log ERROR "Semgrep run failed" [])
     end)
    (λ _, in_world (log ERROR "Semgrep pattern error" [])).

(** [build_graph_for_file]: one graph, filled by the enabled tools in
    the order Joern, CodeQL, Semgrep. *)
Definition build_graph_for_file {R} (use_joern use_codeql use_semgrep : bool)
    (file_path : list N) (method_name : option (list N)) (start_line end_line : option nat)
    : M world R graph :=
  with_local Graph.empty
    (temp_dir ← in_world (ask (mkdtemp E));
     in_world (log INFO "temporary directory" temp_dir);;
     let sc := make_scope method_name start_line end_line in
     (if use_joern then _build_joern_cpg file_path sc else ret tt);;
     (if use_codeql then _build_codeql_taint_flow file_path sc else ret tt);;
     (if use_semgrep then _build_semgrep_patterns file_path sc else ret tt);;
     g ← get_local;
     py_return g).

(** [save_graph]: the file is opened, and so emptied, before the graph
    is serialised. *)
Definition save_graph {R} (g : graph) (output_path : list N) : M world R bool :=
  call (try_except
    (makedirs E (dirname output_path);;
     match graphml_dumps E g with
     | Ok text => write_text E output_path text
     | Err e => write_text E output_path [];; py_raise e
     end;;
     log INFO "graph saved" output_path;;
     py_return true)
    (λ _, log ERROR "graph save error" output_path;; py_return false)).

End WithEnv.

End GraphBuilder.

(** ** [run/main.py] *)

Module Main.
Import PyStr Py Graph Eff Prompt Evaluation GraphBuilder.
#[local] Open Scope py_scope.

(** The command-line arguments [process_bug] reads. *)
Record args := Args {
  results_dir : list N;
  model_type : list N;
  model_size : list N;
  use_graph : bool;
  joern : bool;
  codeql : bool;
  semgrep : bool;
  evaluate : bool
}.

Definition opt_str (o : option (list N)) : pyval :=
  match o with
  | Some s => VStr s
  | None => VNone
  end.

Definition opt_int (o : option nat) : pyval :=
  match o with
  | Some n => VInt (Z.of_nat n)
  | None => VNone
  end.

(** The dictionary [get_complete_extraction] returns. *)
Definition vuln_dict (vi : vuln_info) : list (list N * pyval) :=
  [(lit "bug_id", VStr (vi_bug_id vi));
   (lit "cwe_id", opt_str (vi_cwe_id vi));
   (lit "title", VS (vi_title vi));
   (lit "description", VS (vi_description vi));
   (lit "extended_description", VS (vi_extended_description vi));
   (lit "method_name", opt_str (vi_method_name vi));
   (lit "start_line", opt_int (vi_start_line vi));
   (lit "end_line", opt_int (vi_end_line vi));
   (lit "vulnerable_method", opt_str (vi_vulnerable_method vi));
   (lit "target_code", VS (vi_target_code vi));
   (lit "before_file", VStr (vi_before_file vi));
   (lit "after_file", VStr (vi_after_file vi));
   (lit "package_name", opt_str (vi_package_name vi));
   (lit "imports", VList (VS ∘ SStr <$> vi_imports vi));
   (lit "vulnerable_code", opt_str (vi_vulnerable_code vi));
   (lit "before_file_content", opt_str (vi_before_file_content vi));
   (lit "after_file_content", opt_str (vi_after_file_content vi));
   (lit "complete_target_method", opt_str (vi_complete_target_method vi))].

(** A call of one of the pipeline's functions, recorded with its
    result. *)
Definition traced {R A} (f : callee) (show : A → pyval) (m : M world R A) : M world R A :=
  emit (EvCall f);;
  a ← m;
  emit (EvReturn f (show a));;
  ret a.

(** [result["stages"][name] = True] *)
Definition set_stage {R} (name : string) : M (list (list N * pyval) * world) R unit :=
  set_local (λ result,
    match dict_get (lit "stages") result with
    | Some (VDict stages) =>
        dict_set (lit "stages") (VDict (dict_set (lit name) (VBool true) stages)) result
    | _ => result
    end).

Section WithEnv.
Context (E : env).

(** Step 2 of [process_bug]: the security graph and its text. *)
Definition graph_stage {R} (bug_id : list N) (a : args) (vi : vuln_info)
    : M (list (list N * pyval) * world) R (list N) :=
  in_world (log INFO "Step 2: Building security enhanced graph..." []);;
  graph ← in_world (traced BuildGraphForFile (λ _, VNone)
    (build_graph_for_file E (joern a) (codeql a) (semgrep a)
       (vi_before_file vi) (vi_method_name vi) (vi_start_line vi) (vi_end_line vi)));
  let graph_dir := path_join E (results_dir a) (lit "graphs") in
  in_world (makedirs E graph_dir);;
  _ ← in_world (traced SaveGraph (λ ok : bool, VBool ok)
    (save_graph E graph (path_join E graph_dir (bug_id ++ lit "_graph.graphml"))));
  graph_info ← in_world (traced ExtractGraphInfo (λ v, v)
    (ask (λ t, ext_extract_graph_info E t graph vi (model_size a))));
  graph_info_text ← in_world (traced FormatGraphInfoToText (λ s, VStr s)
    (ask (λ t, ext_format_graph_info E t graph_info (model_size a))));
  in_world (write_text E (path_join E graph_dir (bug_id ++ lit "_graph_info.txt"))
              graph_info_text);;
  set_stage "graph_building";;
  in_world (log INFO "Graph construction completed" []);;
  ret graph_info_text.

(** Steps 5-6 of [process_bug]: integration and CodeBLEU. *)
Definition evaluation_stage (bug_id : list N) (a : args) (vi : vuln_info)
    (generated_code : list N)
    : M (list (list N * pyval) * world) (list (list N * pyval)) unit :=
  in_world (log INFO "Step 5-6: Integrating code and calculating CodeBLEU..." []);;
  integrated ← in_world (traced IntegrateCode
    (λ r : bool * option (list N), VList [VBool r.1; opt_str r.2])
    (integrate_code E
       (if bool_decide (results_dir a = []) then None else Some (results_dir a))
       generated_code (Some vi) None));
  match integrated with
  | (true, Some fixed_file) =>
      eval_result ← in_world (traced EvaluateFix (λ d, VDict d)
        (evaluate_fix E (results_dir a) bug_id fixed_file (vi_before_file vi)
           (vi_complete_target_method vi) None));
      set_stage "evaluation";;
      set_result "evaluation" (VDict eval_result);;
      in_world (log INFO "Evaluation results:" []);;
      match dict_get (lit "code_quality") eval_result with
      | Some VNone | None =>
          in_world (log INFO "  Code Quality: Could not calculate CodeBLEU score" [])
      | Some _ => in_world (log INFO "  Code Quality (CodeBLEU)" [])
      end
  | _ => in_world (log ERROR "Failed to integrate code." []);; return_result
  end.

(** The [try] block of [process_bug]. *)
Definition process_bug_body (bug_id : list N) (a : args)
    : M (list (list N * pyval) * world) (list (list N * pyval)) unit :=
  in_world (log INFO "========== Processing Bug ID ==========" bug_id);;
  start_time ← in_world (ask (λ t, Ok (time_time E t)));
  in_world (log INFO "Step 1: Extracting code and vulnerability information..." []);;
  extracted ← in_world (traced GetCompleteExtraction
    (λ o, match o with Some vi => VDict (vuln_dict vi) | None => VNone end)
    (ask (λ t, ext_get_complete_extraction E t bug_id)));
  match extracted with
  | None =>
      in_world (log ERROR "Could not extract vulnerability information" bug_id);;
      return_result
  | Some vuln_info =>
      set_stage "extraction";;
      in_world (log INFO "Vulnerability info extracted" []);;
      graph_info_text ←
        (if use_graph a
         then text ← graph_stage bug_id a vuln_info; ret (Some text)
         else ret None);
      in_world (log INFO "Step 3-4: Building prompt and running LLM inference..." []);;
      prompt_builder ← in_world (PromptBuilder_init E);
      prompt ←
        (if bool_decide (model_type a = lit "openai") || bool_decide (model_type a = lit "anthropic")
         then
           messages ← in_world (traced BuildChatCompletionMessages (λ v, v)
             (eval (build_chat_completion_messages E prompt_builder (vuln_dict vuln_info)
                      graph_info_text (model_size a))));
           ret (Some messages, None)
         else
           prompt_text ← in_world (traced BuildPromptText (λ s, VStr s)
             (eval (build_prompt_text E prompt_builder (vuln_dict vuln_info)
                      graph_info_text (model_size a))));
           ret (None, Some prompt_text));
      let '(messages, prompt_text) := prompt in
      let prompt_dir := path_join E (results_dir a) (lit "prompts") in
      in_world (makedirs E prompt_dir);;
      in_world (dump_json E (path_join E prompt_dir (bug_id ++ lit "_prompt.json")) false
        (match messages with
         | Some m => if truthy m then m else VDict [(lit "text", opt_str prompt_text)]
         | None => VDict [(lit "text", opt_str prompt_text)]
         end));;
      in_world (traced LLMInferenceInit (λ _, VNone)
        (ask (λ t, ext_llm_init E t (model_type a) (model_size a))));;
      response ← in_world (traced Generate opt_str
        (ask (λ t, ext_generate E t messages prompt_text)));
      match response with
      | None | Some [] =>
          in_world (log ERROR "Failed to generate LLM response." []);;
          return_result
      | Some response =>
          let response_dir := path_join E (results_dir a) (lit "responses") in
          in_world (makedirs E response_dir);;
          in_world (write_text E (path_join E response_dir (bug_id ++ lit "_response.txt"))
                      response);;
          extracted_code ← in_world (traced ExtractCodeFromResponse opt_str
            (ret (Inference.extract_code_from_response (Some response))));
          match extracted_code with
          | None | Some [] =>
              in_world (log ERROR "Could not extract code from the response." []);;
              return_result
          | Some generated_code =>
              let code_dir := path_join E (results_dir a) (lit "generated_code") in
              in_world (makedirs E code_dir);;
              in_world (write_text E (path_join E code_dir (bug_id ++ lit "_code.java"))
                          generated_code);;
              set_stage "inference";;
              in_world (log INFO "LLM inference completed" []);;
              (if evaluate a
               then evaluation_stage bug_id a vuln_info generated_code
               else ret tt);;
              end_time ← in_world (ask (λ t, Ok (time_time E t)));
              set_result "elapsed_time" (VFloat (end_time - start_time)%Qc);;
              set_result "success" (VBool true);;
              in_world (log INFO "========== processing completed ==========" bug_id);;
              return_result
          end
      end
  end.

(** [process_bug(bug_id, args, dataset)]; the dataset is part of the
    environment. *)
Definition process_bug {R} (bug_id : list N) (a : args) : M world R (list (list N * pyval)) :=
  with_local
    [(lit "bug_id", VStr bug_id); (lit "success", VBool false); (lit "stages", VDict [])]
    (try_except
       (process_bug_body bug_id a;; return_result)
       (λ _, in_world (log ERROR "error while processing the bug" bug_id);; return_result)).

(** [all_results["results"][bug_id] = result] *)
Definition set_bug_result {R} (bug_id : list N) (result : list (list N * pyval))
    : M (list (list N * pyval) * world) R unit :=
  set_local (λ all_results,
    match dict_get (lit "results") all_results with
    | Some (VDict rs) =>
        dict_set (lit "results") (VDict (dict_set bug_id (VDict result) rs)) all_results
    | _ => all_results
    end).

(** The path of [all_results.json]. *)
Definition all_results_path (a : args) : list N :=
  os_path_join (results_dir a) (lit "all_results.json").

(** One turn of the loop [for bug_id in bug_ids] of [main]. *)
Definition main_iteration {R} (a : args) (bug_id : list N)
    : M (list (list N * pyval) * world) R unit :=
  try_except
    (result ← in_world (process_bug bug_id a);
     set_bug_result bug_id result;;
     all_results ← get_local;
     in_world (dump_json E (all_results_path a) false (VDict all_results)))
    (λ _, in_world (log ERROR "main: error while processing the bug" bug_id)).

(** [main] from the initialisation of [all_results] to the end of the
    loop over the bug IDs: the accumulated results. *)
Definition main_loop {R} (a : args) (config : pyval) (bug_ids : list (list N))
    : M world R (list (list N * pyval)) :=
  with_local
    [(lit "config", config); (lit "results", VDict [])]
    (for_each bug_ids (main_iteration a);;
     return_result).

End WithEnv.

End Main.

(** ** Concrete inputs *)

Module Examples.
Import PyStr Py Graph Eff Prompt Main.

(** A vulnerability record as the extractor builds it. *)
Definition vuln_b1 : vuln_info :=
  VulnInfo (lit "b1") (Some (lit "79")) (SStr (lit "CWE-79 XSS")) (SStr (lit "desc")) SNone
    (Some (lit "f")) (Some 3%nat) (Some 5%nat) (Some (lit "void f() { }")) (SStr (lit "x"))
    (lit "data/b1/before.java") (lit "data/b1/after.java") None [] None None None
    (Some (lit "void f() { ok(); }")).

(** An environment in which the model answers [response], the requests
    to the file system issued at the times selected by [fails] fail,
    and every tool is installed; the static analysers find nothing.
    The parser knows no method; the method pattern matches the line
    that declares [f]. *)
Definition env_of (response : option (list N)) (fails : nat → bool) : env := {|
  path_join := λ a b, a ++ lit "/" ++ b;
  system_prompt_file := lit "system_prompt.txt";
  user_prompt_file := lit "user_prompt.txt";
  json_dumps := λ _ v, match v with VStr s => s | _ => lit "<json>" end;
  json_dumped_before_error := λ _ _, [];
  graphml_dumps := λ _, Ok (lit "<graphml/>");
  str_other := λ _, lit "?";
  format_general := λ _ _, Err ValueError;
  unicode_decimal := λ _, None;
  io_error := λ _ t, if fails t then Some OSError else None;
  io_write := λ _ t, if fails t then OpenFails OSError else WriteOk;
  time_time := λ t, Q2Qc (inject_Z (Z.of_nat t));
  mkdtemp := λ _, Ok (lit "/tmp/x");
  ext_get_complete_extraction := λ _ _, Ok (Some vuln_b1);
  ext_joern := λ _ _, Ok None;
  ext_codeql := λ _ _, Ok None;
  ext_semgrep := λ _ _, Ok None;
  ext_extract_graph_info := λ _ _ _ _, Ok VNone;
  ext_format_graph_info := λ _ _ _, Ok (lit "graph text");
  ext_llm_init := λ _ _ _, Ok tt;
  ext_generate := λ _ _ _, Ok response;
  ext_import_codebleu := λ _, Ok tt;
  ext_calc_codebleu := λ _ _ _ _ _, Ok [(lit "codebleu", Q2Qc (1 # 2))];
  ext_javalang := λ _, Err ValueError;
  method_pattern_search := λ _ line, bool_decide (line = lit "  void f() {");
  ext_find_semgrep_rule := λ _ _, None;
  ext_run_semgrep := λ _ _ _, Ok false;
  ext_run_test := λ _ _, Ok true
|}.

Definition never : nat → bool := λ _, false.






Definition args_all : args :=
  Args (lit "out") (lit "openai") (lit "large") true true true true true.

Definition world0 : world := World ∅ 0 [].

(** The default user template, cut at its placeholders. *)
Definition default_segments : list segment :=
  [Text (lit "다음은 취약점이 있는 Java 코드입니다:

```java
");
   Hole P_vulnerable_method;
   Text (lit "
```

이 코드는 다음과 같은 취약점이 있습니다:
- 취약점 ID: ");
   Hole P_cwe_id;
   Text (lit "
- 취약점 설명: ");
   Hole P_description;
   Text (lit "

");
   Hole P_graph_info;
   Text (lit "

취약점을 수정한 코드를 제공해주세요. 코드는 전체 메소드를 포함해야 합니다.")].

Definition default_builder : PromptBuilder :=
  {| system_prompt := _get_default_system_prompt; user_prompt := _get_default_user_prompt |}.

End Examples.
(** * Proofs *)

(** ** Reasoning about statements

    [keeps rel m]: running [m] relates the state before to the state
    after, however [m] ends.  For a preorder [rel] this composes along
    the structure of the program. *)

Section Keeps.
Import Py.
Context {S : Type} (rel : S → S → Prop) `{!PreOrder rel}.













End Keeps.

(** Statements of the world inside a function with a local object. *)
Section KeepsLocal.
Import Py Eff.
Context {L : Type} (rel : world → world → Prop) `{!PreOrder rel}.

Definition lift_rel (s s' : L * world) : Prop := rel s.2 s'.2.

#[global] Instance lift_rel_preorder : PreOrder lift_rel.
Proof.
  split.
  - intros s. unfold lift_rel. reflexivity.
  - intros s1 s2 s3 H1 H2. unfold lift_rel in *. by etrans.
Qed.




End KeepsLocal.




(** Unfolding the statement combinators and the primitives of the
    world, to run a small function symbolically. *)
Tactic Notation "py_unfold" "in" hyp(H) :=
  cbv beta iota zeta delta
    [Py.call Py.try_except Py.bind Py.ret Py.py_return Py.py_raise Py.get Py.modify
     Py.eval Py.zoom Py.iteration Py.continue_ Py.is_ImportError
     Eff.ask Eff.emit Eff.log Eff.makedirs Eff.write_with Eff.write_text Eff.read_text
     Eff.path_exists Eff.dump_json Eff.tick
     Eff.in_world Eff.on_local Eff.get_local Eff.set_local Eff.with_local
     Eff.files Eff.now Eff.trace fst snd] in H.

Ltac py_unfold :=
  cbv beta iota zeta delta
    [Py.call Py.try_except Py.bind Py.ret Py.py_return Py.py_raise Py.get Py.modify
     Py.eval Py.zoom Py.iteration Py.continue_ Py.is_ImportError
     Eff.ask Eff.emit Eff.log Eff.makedirs Eff.write_with Eff.write_text Eff.read_text
     Eff.path_exists Eff.dump_json Eff.tick
     Eff.in_world Eff.on_local Eff.get_local Eff.set_local Eff.with_local
     Eff.files Eff.now Eff.trace fst snd].

(** ** A weakest-precondition calculus for statements

    [wp m s Q]: the outcome of running [m] from [s] satisfies [Q].  The
    rules follow the structure of the program, so that a function is
    run symbolically one statement at a time, with one case per answer
    of the outside. *)

Section Wp.
Import Py.
Context {S : Type}.

Definition wp {R A} (m : M S R A) (s : S) (Q : res R A * S → Prop) : Prop := Q (m s).

Lemma wp_ret {R A} (a : A) s (Q : res R A * S → Prop) : Q (Val a, s) → wp (ret a) s Q.
Proof. done. Qed.

Lemma wp_return {R A} (r : R) s (Q : res R A * S → Prop) :
  Q (Return r, s) → wp (py_return r) s Q.
Proof. done. Qed.

Lemma wp_raise {R A} (e : exn) s (Q : res R A * S → Prop) :
  Q (Raise e, s) → wp (py_raise e) s Q.
Proof. done. Qed.

Lemma wp_get {R} s (Q : res R S * S → Prop) : Q (Val s, s) → wp get s Q.
Proof. done. Qed.

Lemma wp_modify {R} (f : S → S) s (Q : res R unit * S → Prop) :
  Q (Val tt, f s) → wp (modify f) s Q.
Proof. done. Qed.

Lemma wp_eval {R A} (o : outcome A) s (Q : res R A * S → Prop) :
  match o with
  | Ok a => Q (Val a, s)
  | Err e => Q (Raise e, s)
  end → wp (eval o) s Q.
Proof. by destruct o. Qed.

Lemma wp_bind {R A B} (m : M S R A) (f : A → M S R B) s (Q : res R B * S → Prop) :
  wp m s (λ rs, match rs with
                | (Val a, s') => wp (f a) s' Q
                | (Return r, s') => Q (Return r, s')
                | (Raise e, s') => Q (Raise e, s')
                end) →
  wp (bind m f) s Q.
Proof. unfold wp, bind. by destruct (m s) as [[a|r|e] s']. Qed.

Lemma wp_try_except {R A} (body : M S R A) (handler : exn → M S R A) s
    (Q : res R A * S → Prop) :
  wp body s (λ rs, match rs with
                   | (Val a, s') => Q (Val a, s')
                   | (Return r, s') => Q (Return r, s')
                   | (Raise e, s') => wp (handler e) s' Q
                   end) →
  wp (try_except body handler) s Q.
Proof. unfold wp, try_except. by destruct (body s) as [[a|r|e] s']. Qed.

Lemma wp_call {R R'} (body : M S R R) s (Q : res R' R * S → Prop) :
  wp body s (λ rs, match rs with
                   | (Val r, s') => Q (Val r, s')
                   | (Return r, s') => Q (Val r, s')
                   | (Raise e, s') => Q (Raise e, s')
                   end) →
  wp (call body) s Q.
Proof. unfold wp, call. by destruct (body s) as [[a|r|e] s']. Qed.

Lemma wp_for_each_nil {R A} (body : A → M S R unit) s (Q : res R unit * S → Prop) :
  Q (Val tt, s) → wp (for_each [] body) s Q.
Proof. done. Qed.

Lemma wp_for_each_cons {R A} (a : A) l (body : A → M S R unit) s
    (Q : res R unit * S → Prop) :
  wp (bind (body a) (λ _, for_each l body)) s Q → wp (for_each (a :: l) body) s Q.
Proof. done. Qed.

(** A statement whose run is known. *)
Lemma wp_run {R A} (m : M S R A) s rs (Q : res R A * S → Prop) :
  m s = rs → Q rs → wp m s Q.
Proof. by intros <-. Qed.

Lemma wp_elim {R A} (m : M S R A) s (Q : res R A * S → Prop) : wp m s Q → Q (m s).
Proof. done. Qed.

End Wp.

Section WpZoom.
Import Py.

Lemma wp_zoom {S T R A} (proj : T → S) (inj : S → T → T) (m : M S R A) t
    (Q : res R A * T → Prop) :
  wp m (proj t) (λ rs, Q (rs.1, inj rs.2 t)) → wp (zoom proj inj m) t Q.
Proof. unfold wp, zoom. by destruct (m (proj t)). Qed.

End WpZoom.

Section WpEff.
Import Py Eff.
Context (E : env).

Lemma wp_in_world {L R A} (m : M world R A) (l : L) w (Q : res R A * (L * world) → Prop) :
  wp m w (λ rs, Q (rs.1, (l, rs.2))) → wp (in_world m) (l, w) Q.
Proof. unfold wp, in_world, zoom. simpl. by destruct (m w). Qed.

Lemma wp_on_local {L R A} (m : M L R A) (l : L) w (Q : res R A * (L * world) → Prop) :
  wp m l (λ rs, Q (rs.1, (rs.2, w))) → wp (on_local m) (l, w) Q.
Proof. unfold wp, on_local, zoom. simpl. by destruct (m l). Qed.

Lemma wp_get_local {L R} (l : L) w (Q : res R L * (L * world) → Prop) :
  Q (Val l, (l, w)) → wp get_local (l, w) Q.
Proof. done. Qed.

Lemma wp_set_local {L R} (f : L → L) (l : L) w (Q : res R unit * (L * world) → Prop) :
  Q (Val tt, (f l, w)) → wp (set_local f) (l, w) Q.
Proof. done. Qed.

Lemma wp_with_local {L R R'} (init : L) (body : M (L * world) R R) w
    (Q : res R' R * world → Prop) :
  wp body (init, w) (λ rs, match rs with
                           | (Val r, s') => Q (Val r, s'.2)
                           | (Return r, s') => Q (Val r, s'.2)
                           | (Raise e, s') => Q (Raise e, s'.2)
                           end) →
  wp (with_local init body) w Q.
Proof.
  unfold wp, with_local, call. by destruct (body (init, w)) as [[a|r|e] [l w']].
Qed.

Lemma wp_emit {R} (e : event) w (Q : res R unit * world → Prop) :
  Q (Val tt, World (files w) (now w) (trace w ++ [e])) → wp (emit e) w Q.
Proof. done. Qed.

Lemma wp_log {R} lvl msg arg w (Q : res R unit * world → Prop) :
  Q (Val tt, World (files w) (now w) (trace w ++ [EvLog lvl msg arg])) →
  wp (log lvl msg arg) w Q.
Proof. done. Qed.

Lemma wp_ask {R A} (oracle : nat → outcome A) w (Q : res R A * world → Prop) :
  match oracle (now w) with
  | Ok a => Q (Val a, tick w)
  | Err e => Q (Raise e, tick w)
  end → wp (ask oracle) w Q.
Proof. unfold wp, ask. by destruct (oracle (now w)). Qed.

Lemma wp_makedirs {R} path w (Q : res R unit * world → Prop) :
  match fails E (MakeDirs path) (now w) with
  | Some e => Q (Raise e, tick w)
  | None => Q (Val tt, World (files w) (S (now w)) (trace w ++ [EvMakedirs path]))
  end → wp (makedirs E path) w Q.
Proof.
  unfold wp, makedirs, bind, ask, emit, modify.
  by destruct (fails E (MakeDirs path) (now w)).
Qed.

Lemma wp_write_with {R} unencoded path text w (Q : res R unit * world → Prop) :
  match write_status_at E unencoded path text (now w) with
  | Written =>
      Q (Val tt, World (<[path := text]> (files w)) (S (now w))
                   (trace w ++ [EvWrite path text]))
  | Untouched e => Q (Raise e, tick w)
  | Damaged e remains =>
      Q (Raise e, World (<[path := remains]> (files w)) (S (now w)) (trace w))
  end → wp (write_with E unencoded path text) w Q.
Proof.
  unfold wp, write_with. by destruct (write_status_at E unencoded path text (now w)).
Qed.

Lemma wp_write_text {R} path text w (Q : res R unit * world → Prop) :
  match write_status_at E [] path text (now w) with
  | Written =>
      Q (Val tt, World (<[path := text]> (files w)) (S (now w))
                   (trace w ++ [EvWrite path text]))
  | Untouched e => Q (Raise e, tick w)
  | Damaged e remains =>
      Q (Raise e, World (<[path := remains]> (files w)) (S (now w)) (trace w))
  end → wp (write_text E path text) w Q.
Proof. apply wp_write_with. Qed.

Lemma wp_dump_json {R} path ensure_ascii v w (Q : res R unit * world → Prop) :
  match write_status_at E (json_dumped_before_error E ensure_ascii v) path
          (json_dumps E ensure_ascii v) (now w) with
  | Written =>
      Q (Val tt, World (<[path := json_dumps E ensure_ascii v]> (files w)) (S (now w))
                   (trace w ++ [EvWrite path (json_dumps E ensure_ascii v)]))
  | Untouched e => Q (Raise e, tick w)
  | Damaged e remains =>
      Q (Raise e, World (<[path := remains]> (files w)) (S (now w)) (trace w))
  end → wp (dump_json E path ensure_ascii v) w Q.
Proof. apply wp_write_with. Qed.

Lemma wp_read_text {R} path w (Q : res R (list N) * world → Prop) :
  match read_at E (files w) path (now w) with
  | Ok text => Q (Val text, tick w)
  | Err e => Q (Raise e, tick w)
  end → wp (read_text E path) w Q.
Proof. unfold wp, read_text. by destruct (read_at E (files w) path (now w)). Qed.

Lemma wp_path_exists {R} path w (Q : res R bool * world → Prop) :
  match file_at (files w) path with
  | Some _ => Q (Val true, w)
  | None => Q (Val false, w)
  end → wp (path_exists path) w Q.
Proof.
  unfold wp, path_exists, bind, get, ret. by destruct (file_at (files w) path).
Qed.

End WpEff.

(** One step of a symbolic run. *)
Ltac wp_simpl :=
  cbv beta iota zeta delta [Eff.files Eff.now Eff.trace Eff.tick fst snd].

Ltac wp_rule :=
  lazymatch goal with
  | |- wp (Py.bind _ _) _ _ => apply wp_bind
  | |- wp (Py.ret _) _ _ => apply wp_ret
  | |- wp (Py.py_return _) _ _ => apply wp_return
  | |- wp (Py.py_raise _) _ _ => apply wp_raise
  | |- wp Py.get _ _ => apply wp_get
  | |- wp (Py.modify _) _ _ => apply wp_modify
  | |- wp (Py.eval _) _ _ => apply wp_eval
  | |- wp (Py.try_except _ _) _ _ => apply wp_try_except
  | |- wp (Py.call _) _ _ => apply wp_call
  | |- wp (Py.iteration _) _ _ => apply wp_call
  | |- wp (Py.continue_) _ _ => apply wp_return
  | |- wp (Py.for_each [] _) _ _ => apply wp_for_each_nil
  | |- wp (Py.for_each (_ :: _) _) _ _ => apply wp_for_each_cons
  | |- wp (Eff.in_world _) _ _ => apply wp_in_world
  | |- wp (Eff.on_local _) _ _ => apply wp_on_local
  | |- wp Eff.get_local _ _ => apply wp_get_local
  | |- wp (Eff.set_local _) _ _ => apply wp_set_local
  | |- wp (Eff.with_local _ _) _ _ => apply wp_with_local
  | |- wp (Eff.emit _) _ _ => apply wp_emit
  | |- wp (Eff.log _ _ _) _ _ => apply wp_log
  | |- wp (Eff.ask _) _ _ => apply wp_ask
  | |- wp (Eff.makedirs _ _) _ _ => apply wp_makedirs
  | |- wp (Eff.write_with _ _ _ _) _ _ => apply wp_write_with
  | |- wp (Eff.write_text _ _ _) _ _ => apply wp_write_text
  | |- wp (Eff.dump_json _ _ _ _) _ _ => apply wp_dump_json
  | |- wp (Eff.read_text _ _) _ _ => apply wp_read_text
  | |- wp (Eff.path_exists _) _ _ => apply wp_path_exists
  | |- wp (match ?x with _ => _ end) _ _ => destruct x eqn:?
  | |- match ?x with _ => _ end =>
      first [ match goal with H : x = _ |- _ => rewrite H end | destruct x eqn:? ]
  end; wp_simpl.

(** Start the symbolic run of [m] from [s] in a goal about [m s]. *)
Ltac wp_for m s :=
  pattern (m s);
  lazymatch goal with
  | |- ?Q _ => refine (wp_elim m s Q _)
  end.

(** ** Code-block extraction ([inference.py]) *)

Section ExtractFacts.
Import PyStr Re Inference.

Lemma strip_prefix_Some w s r : strip_prefix w s = Some r → s = w ++ r.
Proof.
  revert s; induction w as [|c w IH]; intros [|x s] H; simpl in *; try congruence.
  destruct (N.eqb_spec x c); [|discriminate]. subst. f_equal. auto.
Qed.

Lemma strip_prefix_app w r : strip_prefix w (w ++ r) = Some r.
Proof. induction w as [|c w IH]; simpl; [done|]. by rewrite N.eqb_refl. Qed.

Lemma find_first_Some w s a b : find_first w s = Some (a, b) → s = a ++ w ++ b.
Proof.
  revert a; induction s as [|x s IH]; intros a H.
  - simpl in H. destruct (strip_prefix w []) eqn:E; [|discriminate].
    injection H as <- <-. by apply strip_prefix_Some in E.
  - simpl in H. destruct (strip_prefix w (x :: s)) eqn:E.
    + injection H as <- <-. by apply strip_prefix_Some in E.
    + destruct (find_first w s) as [[a' b']|]; [|discriminate].
      injection H as <- <-. simpl. f_equal. by apply IH.
Qed.

Lemma find_first_None w s a b : find_first w s = None → s ≠ a ++ w ++ b.
Proof.
  revert a; induction s as [|x s IH]; intros a H Heq.
  - destruct a; simpl in *.
    + rewrite Heq, strip_prefix_app in H. discriminate.
    + discriminate.
  - simpl in H. destruct (strip_prefix w (x :: s)) eqn:E; [discriminate|].
    destruct a as [|y a]; simpl in Heq.
    + rewrite Heq, strip_prefix_app in E. discriminate.
    + injection Heq as -> Heq. destruct (find_first w s) as [[? ?]|] eqn:F; [discriminate|].
      by eapply IH.
Qed.

(** *** [str.strip] *)

Lemma lstrip_app a b :
  lstrip (a ++ b) = if forallb isspace a then lstrip b else lstrip a ++ b.
Proof.
  induction a as [|x a IH]; simpl; [done|].
  destruct (isspace x); simpl; [apply IH | done].
Qed.

Lemma lstrip_all_space s : forallb isspace s = true → lstrip s = [].
Proof.
  induction s as [|x s IH]; simpl; [done|].
  destruct (isspace x); simpl; [done | discriminate].
Qed.

Lemma forallb_rev (p : N → bool) s : forallb p (rev s) = forallb p s.
Proof.
  induction s as [|x s IH]; simpl; [done|].
  rewrite forallb_app, IH. simpl. rewrite andb_true_r. apply andb_comm.
Qed.

Lemma rstrip_cons x s :
  rstrip (x :: s) = if forallb isspace (x :: s) then [] else x :: rstrip s.
Proof.
  unfold rstrip. simpl rev. rewrite lstrip_app, forallb_rev. simpl forallb.
  destruct (forallb isspace s) eqn:Hs; simpl.
  - destruct (isspace x); simpl; [done|].
    rewrite lstrip_all_space by (by rewrite forallb_rev). done.
  - rewrite andb_false_r, rev_app_distr. done.
Qed.

Lemma rstrip_all_space s : forallb isspace s = true → rstrip s = [].
Proof.
  intros H. unfold rstrip. rewrite lstrip_all_space; [done|]. by rewrite forallb_rev.
Qed.

Lemma lstrip_idemp s : lstrip (lstrip s) = lstrip s.
Proof.
  induction s as [|x s IH]; simpl; [done|].
  destruct (isspace x) eqn:E; [done|]. simpl. by rewrite E.
Qed.

Lemma lstrip_head s : lstrip s = [] ∨ ∃ x t, lstrip s = x :: t ∧ isspace x = false.
Proof.
  induction s as [|x s IH]; simpl; [by left|].
  destruct (isspace x) eqn:E; [done|]. right; eauto.
Qed.

Lemma strip_idemp s : strip (strip s) = strip s.
Proof.
  unfold strip.
  assert (lstrip (rstrip (lstrip s)) = rstrip (lstrip s)) as ->.
  { destruct (lstrip_head s) as [->|(x & t & -> & Hx)]; [done|].
    rewrite rstrip_cons. simpl forallb. rewrite Hx. simpl. by rewrite Hx. }
  unfold rstrip. by rewrite rev_involutive, lstrip_idemp.
Qed.

(** *** The tail of both patterns: [\s*([\s\S]*?)\s*] and the closing fence *)

Lemma push_off x k : cap_on k = false → push x k = k.
Proof. unfold push. by intros ->. Qed.

Lemma re_match_lits w its s k :
  cap_on k = false →
  re_match ((ILit <$> w) ++ its) s k =
    match strip_prefix w s with
    | Some r => re_match its r k
    | None => None
    end.
Proof.
  intros Hk. revert s; induction w as [|c w IH]; intros s; simpl; [done|].
  destruct s as [|x s]; [done|]. destruct (N.eqb x c); [|done].
  rewrite push_off by done. apply IH.
Qed.

Lemma re_match_open its s k :
  re_match (IOpen :: its) s k = re_match its s (Capture [] true).
Proof. reflexivity. Qed.

Lemma re_match_close its s k :
  re_match (IClose :: its) s k = re_match its s (Capture (cap_rev k) false).
Proof. reflexivity. Qed.

Lemma re_match_greedy_nil cls its k :
  re_match (IGreedy cls :: its) [] k = re_match its [] k.
Proof. reflexivity. Qed.

Lemma re_match_greedy_cons cls its x s k :
  re_match (IGreedy cls :: its) (x :: s) k =
    if cls x then
      match re_match (IGreedy cls :: its) s (push x k) with
      | Some r => Some r
      | None => re_match its (x :: s) k
      end
    else re_match its (x :: s) k.
Proof. reflexivity. Qed.

Lemma re_match_lazy_nil cls its k :
  re_match (ILazy cls :: its) [] k = re_match its [] k.
Proof. simpl. by destruct (re_match its [] k). Qed.

Lemma re_match_lazy_cons cls its x s k :
  re_match (ILazy cls :: its) (x :: s) k =
    match re_match its (x :: s) k with
    | Some r => Some r
    | None => if cls x then re_match (ILazy cls :: its) s (push x k) else None
    end.
Proof. reflexivity. Qed.

Variables (f0 : N) (ftl : list N).
Hypothesis f0_not_space : isspace f0 = false.

Let fence : list N := f0 :: ftl.

Lemma strip_prefix_fence_space x s :
  isspace x = true → strip_prefix fence (x :: s) = None.
Proof.
  intros Hx. simpl. destruct (N.eqb_spec x f0); [|done]. congruence.
Qed.

Lemma closing_spec s k :
  cap_on k = false →
  re_match (IGreedy isspace :: (ILit <$> fence)) s k =
    match strip_prefix fence (lstrip s) with
    | Some r => Some (rev (cap_rev k), r)
    | None => None
    end.
Proof.
  intros Hk. induction s as [|x s IH].
  - rewrite re_match_greedy_nil.
    rewrite <- (app_nil_r (ILit <$> fence)), re_match_lits by done. done.
  - rewrite re_match_greedy_cons. simpl lstrip.
    destruct (isspace x) eqn:Hx.
    + rewrite push_off, IH by done.
      destruct (strip_prefix fence (lstrip s)); [done|].
      rewrite <- (app_nil_r (ILit <$> fence)), re_match_lits by done.
      by rewrite strip_prefix_fence_space.
    + rewrite <- (app_nil_r (ILit <$> fence)), re_match_lits by done. done.
Qed.

Lemma lstrip_fence_find s r :
  strip_prefix fence (lstrip s) = Some r →
  ∃ body, find_first fence s = Some (body, r) ∧ forallb isspace body = true.
Proof.
  induction s as [|x s IH]; intros H.
  - simpl in H. discriminate.
  - simpl lstrip in H. destruct (isspace x) eqn:Hx.
    + destruct (IH H) as (body & Hb & Hsp). exists (x :: body).
      split; [|by simpl; rewrite Hx].
      cbn [find_first]. rewrite strip_prefix_fence_space by done. by rewrite Hb.
    + exists []. split; [|done]. cbn [find_first]. by rewrite H.
Qed.

Lemma find_first_all_space body post s :
  s = body ++ fence ++ post → forallb isspace body = true →
  strip_prefix fence (lstrip s) = Some post.
Proof.
  intros -> Hb. rewrite lstrip_app, Hb. unfold fence. simpl lstrip.
  rewrite f0_not_space. apply (strip_prefix_app (f0 :: ftl)).
Qed.

Lemma lazy_spec b acc :
  re_match (ILazy cls_sS :: IClose :: IGreedy isspace :: (ILit <$> fence)) b (Capture acc true) =
    match find_first fence b with
    | Some (body, post) => Some (rev acc ++ rstrip body, post)
    | None => None
    end.
Proof.
  revert acc; induction b as [|x b IH]; intros acc.
  - rewrite re_match_lazy_nil, re_match_close, closing_spec by done. done.
  - rewrite re_match_lazy_cons, re_match_close, closing_spec by done. cbn [cap_rev].
    destruct (strip_prefix fence (lstrip (x :: b))) as [r|] eqn:E.
    + destruct (lstrip_fence_find _ _ E) as (body & -> & Hsp).
      by rewrite rstrip_all_space, app_nil_r.
    + assert (cls_sS x = true) as -> by (unfold cls_sS; by destruct (isspace x)).
      unfold push; cbn [cap_on cap_rev]. rewrite IH.
      assert (strip_prefix fence (x :: b) = None) as Hnp.
      { destruct (strip_prefix fence (x :: b)) as [r|] eqn:F; [|done].
        apply strip_prefix_Some in F.
        rewrite (find_first_all_space [] r (x :: b)) in E; done. }
      cbn [find_first]. rewrite Hnp.
      destruct (find_first fence b) as [[body post]|] eqn:F; [|done].
      rewrite rstrip_cons.
      destruct (forallb isspace (x :: body)) eqn:Hsp.
      * apply find_first_Some in F.
        rewrite (find_first_all_space (x :: body) post (x :: b)) in E; [done| |done].
        simpl. by f_equal.
      * simpl. by rewrite <- app_assoc.
Qed.

Lemma block_tail_spec a k :
  cap_on k = false →
  re_match (IGreedy isspace :: IOpen :: ILazy cls_sS :: IClose :: IGreedy isspace :: (ILit <$> fence)) a k =
    match find_first fence a with
    | Some (body, post) => Some (strip body, post)
    | None => None
    end.
Proof.
  intros Hk. induction a as [|x a IH].
  - rewrite re_match_greedy_nil, re_match_open. by rewrite lazy_spec.
  - rewrite re_match_greedy_cons.
    destruct (isspace x) eqn:Hx.
    + rewrite push_off, IH by done. cbn [find_first].
      rewrite strip_prefix_fence_space by done.
      destruct (find_first fence a) as [[body post]|] eqn:F.
      * unfold strip. simpl lstrip. by rewrite Hx.
      * rewrite re_match_open, lazy_spec. cbn [find_first].
        rewrite strip_prefix_fence_space by done. by rewrite F.
    + rewrite re_match_open, lazy_spec.
      destruct (find_first fence (x :: a)) as [[body post]|] eqn:F; [|done].
      simpl. do 2 f_equal. unfold strip. f_equal.
      cbn [find_first] in F. destruct (strip_prefix fence (x :: a)).
      * by injection F as <- <-.
      * destruct (find_first fence a) as [[? ?]|]; [|done].
        injection F as <- <-. simpl. by rewrite Hx.
Qed.

Definition block_pattern (opener : list N) : list item :=
  (ILit <$> opener)
  ++ [IGreedy isspace; IOpen; ILazy cls_sS; IClose; IGreedy isspace] ++ (ILit <$> fence).

Lemma block_pattern_match opener s :
  re_match (block_pattern opener) s (Capture [] false) =
    match strip_prefix opener s with
    | Some a =>
        match find_first fence a with
        | Some (body, post) => Some (strip body, post)
        | None => None
        end
    | None => None
    end.
Proof.
  unfold block_pattern. rewrite re_match_lits by done.
  destruct (strip_prefix opener s); [|done]. by apply block_tail_spec.
Qed.

Definition block_of (opener text : list N) : option (list N) :=
  match find_first opener text with
  | Some (_, after) =>
      match find_first fence after with
      | Some (body, _) => Some body
      | None => None
      end
  | None => None
  end.

Lemma block_of_later opener x s a :
  x :: s = opener ++ a → find_first fence a = None → block_of opener s = None.
Proof.
  intros Hs Hno. unfold block_of.
  destruct (find_first opener s) as [[pre after]|] eqn:F; [|done].
  destruct (find_first fence after) as [[body post]|] eqn:G; [|done].
  apply find_first_Some in F, G. exfalso.
  assert (opener ++ a = (x :: pre ++ opener) ++ after) as Heq.
  { rewrite <- Hs, F. simpl. by rewrite <- app_assoc. }
  apply app_eq_app in Heq as [l [[H1 H2]|[H1 H2]]].
  - apply (f_equal length) in H1. simpl in H1. rewrite !length_app in H1. lia.
  - apply (find_first_None fence a (l ++ body) post Hno).
    rewrite H2, G. by rewrite <- app_assoc.
Qed.

Lemma findall_head_fuel opener s n :
  (length s ≤ n)%nat →
  head (findall_fuel (S n) (block_pattern opener) s) = strip <$> block_of opener s.
Proof.
  revert n; induction s as [|x s IH]; intros n Hn.
  - cbn [findall_fuel]. rewrite block_pattern_match. unfold block_of. cbn [find_first].
    destruct (strip_prefix opener []) as [a|]; [|done].
    by destruct (find_first fence a) as [[? ?]|].
  - cbn [findall_fuel]. rewrite block_pattern_match. unfold block_of. cbn [find_first].
    destruct (strip_prefix opener (x :: s)) as [a|] eqn:E.
    + destruct (find_first fence a) as [[body post]|] eqn:F; [done|].
      destruct n as [|n]; [simpl in Hn; lia|].
      rewrite IH by (simpl in Hn; lia).
      apply strip_prefix_Some in E. by rewrite (block_of_later opener x s a).
    + destruct n as [|n]; [simpl in Hn; lia|].
      rewrite IH by (simpl in Hn; lia). unfold block_of.
      by destruct (find_first opener s) as [[? ?]|].
Qed.

Lemma findall_head opener s :
  head (findall (block_pattern opener) s) = strip <$> block_of opener s.
Proof. apply findall_head_fuel. done. Qed.

End ExtractFacts.

(** C5. [extract_code_from_response] returns the stripped content of the
    first [```java] fenced block when the response has one, otherwise
    the stripped content of the first generic fenced block when there is
    one, otherwise the whole response unchanged; and it returns [None]
    exactly when the response is [None] or the empty string. *)
Theorem extract_code_from_response_spec (response_text : option (list N)) :
  Inference.extract_code_from_response response_text =
    match response_text with
    | None => None
    | Some text =>
        if decide (text = []) then None
        else match Inference.first_fenced_block (PyStr.lit "```java") text with
             | Some body => Some (PyStr.strip body)
             | None =>
                 match Inference.first_fenced_block (PyStr.lit "```") text with
                 | Some body => Some (PyStr.strip body)
                 | None => Some text
                 end
             end
    end
  ∧ (Inference.extract_code_from_response response_text = None
     ↔ response_text = None ∨ response_text = Some []).
Proof.
  set (spec := match response_text with
    | None => None
    | Some text =>
        if decide (text = []) then None
        else match Inference.first_fenced_block (PyStr.lit "```java") text with
             | Some body => Some (PyStr.strip body)
             | None =>
                 match Inference.first_fenced_block (PyStr.lit "```") text with
                 | Some body => Some (PyStr.strip body)
                 | None => Some text
                 end
             end
    end).
  assert (Inference.extract_code_from_response response_text = spec) as Heq.
  { subst spec. destruct response_text as [[|c text]|]; [done| |done].
    rewrite decide_False by done.
    pose proof (findall_head 96 [96; 96] eq_refl (PyStr.lit "```java") (c :: text)) as Hj.
    pose proof (findall_head 96 [96; 96] eq_refl (PyStr.lit "```") (c :: text)) as Hc.
    change (block_pattern 96 [96; 96] (PyStr.lit "```java")) with Re.java_pattern in Hj.
    change (block_pattern 96 [96; 96] (PyStr.lit "```")) with Re.code_pattern in Hc.
    change (block_of 96 [96; 96]) with Inference.first_fenced_block in Hj, Hc.
    unfold Inference.extract_code_from_response.
    destruct (Re.findall Re.java_pattern (c :: text)) as [|m0 ?];
      destruct (Inference.first_fenced_block (PyStr.lit "```java") (c :: text)) as [bj|];
      try discriminate Hj.
    - destruct (Re.findall Re.code_pattern (c :: text)) as [|m1 ?];
        destruct (Inference.first_fenced_block (PyStr.lit "```") (c :: text)) as [bc|];
        try discriminate Hc; [done|].
      injection Hc as ->. by rewrite strip_idemp.
    - injection Hj as ->. by rewrite strip_idemp. }
  split; [exact Heq|]. rewrite Heq. subst spec.
  destruct response_text as [text|]; [|split; [by left | done]].
  destruct (decide (text = [])) as [->|Hne]; [split; [by right | done]|].
  split.
  - intros Hnone. exfalso.
    destruct (Inference.first_fenced_block (PyStr.lit "```java") text); [done|].
    by destruct (Inference.first_fenced_block (PyStr.lit "```") text).
  - intros [Hnone|Hempty]; [done|]. by injection Hempty.
Qed.

Example extract_java_block :
  Inference.extract_code_from_response
    (Some (PyStr.lit "Here:  ```java
  int x = 1;
``` and ```
other
```"))
  = Some (PyStr.lit "int x = 1;").
Proof. vm_compute. reflexivity. Qed.

Example extract_generic_block :
  Inference.extract_code_from_response (Some (PyStr.lit "a ``` b ``` c")) = Some (PyStr.lit "b").
Proof. vm_compute. reflexivity. Qed.

Example extract_unterminated :
  Inference.extract_code_from_response (Some (PyStr.lit "a ```java b"))
  = Some (PyStr.lit "a ```java b").
Proof. vm_compute. reflexivity. Qed.

Example extract_empty_block :
  Inference.extract_code_from_response (Some (PyStr.lit "```java
```")) = Some [].
Proof. vm_compute. reflexivity. Qed.

(** ** Prompt templating ([prompt_builder.py]) *)

Section FormatFacts.
Import PyStr Py Eff Prompt.
Context (E : env).

Lemma scan_text kwargs s rest :
  no_brace s = true →
  scan E kwargs MText (s ++ rest) = prepend s (scan E kwargs MText rest).
Proof.
  intros Hs. induction s as [|c s IH]; simpl.
  - by destruct (scan E kwargs MText rest).
  - simpl in Hs. apply andb_prop in Hs as [Hc Hs]. apply andb_prop in Hc as [H1 H2].
    apply negb_true_iff in H1, H2. rewrite H1, H2, (IH Hs).
    by destruct (scan E kwargs MText rest).
Qed.

(** The keyword arguments [build_prompt] passes. *)
Definition prompt_kwargs (v1 v2 v3 v4 : pyval) : list (list N * pyval) :=
  [(lit "vulnerable_method", v1); (lit "cwe_id", v2);
   (lit "description", v3); (lit "graph_info", v4)].

Definition arg_of (p : placeholder) (v1 v2 v3 v4 : pyval) : pyval :=
  match p with
  | P_vulnerable_method => v1
  | P_cwe_id => v2
  | P_description => v3
  | P_graph_info => v4
  end.

Lemma scan_hole v1 v2 v3 v4 p rest :
  scan E (prompt_kwargs v1 v2 v3 v4) MText
    (([123] ++ lit (placeholder_name p) ++ [125]) ++ rest)
  = prepend (py_str E (arg_of p v1 v2 v3 v4))
      (scan E (prompt_kwargs v1 v2 v3 v4) MText rest).
Proof. destruct p; reflexivity. Qed.

Lemma prepend_prepend a b r : prepend a (prepend b r) = prepend (a ++ b) r.
Proof. destruct r; simpl; [|done..]. by rewrite app_assoc. Qed.

Lemma scan_template v1 v2 v3 v4 segs :
  well_formed segs = true →
  scan E (prompt_kwargs v1 v2 v3 v4) MText (template_of segs)
  = FText (concat ((λ sg, match sg with
                           | Text s => s
                           | Hole p => py_str E (arg_of p v1 v2 v3 v4)
                           end) <$> segs)).
Proof.
  induction segs as [|sg segs IH]; intros Hwf; [done|].
  simpl in Hwf. apply andb_prop in Hwf as [Hsg Hwf].
  unfold template_of. rewrite fmap_cons. cbn [concat].
  fold (template_of segs). destruct sg as [s|p].
  - rewrite scan_text, (IH Hwf) by done. done.
  - rewrite scan_hole, (IH Hwf). done.
Qed.

End FormatFacts.

(** C7. For a user template made of brace-free text and the four
    placeholders, [build_chat_completion_messages] returns exactly two
    messages, a [system] one followed by a [user] one, and the user
    content is the template with each placeholder replaced by the field
    of [vuln_info] (the empty string when the field is missing) and by
    the graph text (the empty string without one). *)
Theorem build_chat_completion_messages_spec (E : Eff.env) (self : Prompt.PromptBuilder)
    (vuln_info : list (list N * Py.pyval)) (graph_info_text : option (list N))
    (model_size : list N) (segs : list Prompt.segment) :
  Prompt.well_formed segs = true →
  Prompt.user_prompt self = Prompt.template_of segs →
  Prompt.build_chat_completion_messages E self vuln_info graph_info_text model_size
    = Py.Ok (Py.VList
        [Py.VDict [(PyStr.lit "role", Py.VS (Py.SStr (PyStr.lit "system")));
                   (PyStr.lit "content",
                    Py.VS (Py.SStr (if decide (model_size = PyStr.lit "1b")
                                    then Prompt.system_prompt_1b
                                    else Prompt.system_prompt self)))];
         Py.VDict [(PyStr.lit "role", Py.VS (Py.SStr (PyStr.lit "user")));
                   (PyStr.lit "content",
                    Py.VS (Py.SStr (Prompt.filled E vuln_info graph_info_text segs)))]]).
Proof.
  intros Hwf Htpl.
  unfold Prompt.build_chat_completion_messages, Prompt.build_prompt, Prompt.str_format.
  rewrite Htpl.
  match goal with
  | |- context [Prompt.scan E ?kw Prompt.MText _] =>
      change kw with (prompt_kwargs
        (Prompt.get_or_empty "vulnerable_method" vuln_info)
        (Prompt.get_or_empty "cwe_id" vuln_info)
        (Prompt.get_or_empty "description" vuln_info)
        (Py.VS (Py.SStr match graph_info_text with
                  | Some text =>
                      if Prompt.USE_GRAPH_INFO && negb (bool_decide (text = [])) then text else []
                  | None => []
                  end)))
  end.
  rewrite scan_template by done.
  match goal with
  | |- context [concat ?l] =>
      assert (concat l = Prompt.filled E vuln_info graph_info_text segs) as ->
  end.
  { unfold Prompt.filled. f_equal. apply list_fmap_ext. intros _ sg _.
    destruct sg as [s|[]]; try reflexivity.
    simpl. destruct graph_info_text as [text|]; [|done].
    simpl. by destruct (bool_decide_reflect (text = [])) as [->|]. }
  reflexivity.
Qed.

(** The default template, a record with a Java method full of braces,
    and a graph text. *)
Lemma build_chat_completion_messages_witness :
  Prompt.build_chat_completion_messages (Examples.env_of None Examples.never)
      Examples.default_builder (Main.vuln_dict Examples.vuln_b1)
      (Some (PyStr.lit "graph text")) (PyStr.lit "large")
    = Py.Ok (Py.VList
        [Py.VDict [(PyStr.lit "role", Py.VS (Py.SStr (PyStr.lit "system")));
                   (PyStr.lit "content",
                    Py.VS (Py.SStr (if decide (PyStr.lit "large" = PyStr.lit "1b")
                                    then Prompt.system_prompt_1b
                                    else Prompt.system_prompt Examples.default_builder)))];
         Py.VDict [(PyStr.lit "role", Py.VS (Py.SStr (PyStr.lit "user")));
                   (PyStr.lit "content",
                    Py.VS (Py.SStr (Prompt.filled (Examples.env_of None Examples.never)
                      (Main.vuln_dict Examples.vuln_b1) (Some (PyStr.lit "graph text"))
                      Examples.default_segments)))]]).
Proof.
  apply (build_chat_completion_messages_spec (Examples.env_of None Examples.never)
           Examples.default_builder (Main.vuln_dict Examples.vuln_b1)
           (Some (PyStr.lit "graph text")) (PyStr.lit "large") Examples.default_segments).
  - vm_compute. reflexivity.
  - vm_compute. reflexivity.
Defined.

Example filled_default_prompt :
  Prompt.filled (Examples.env_of None Examples.never) (Main.vuln_dict Examples.vuln_b1)
    None Examples.default_segments
  = PyStr.lit "다음은 취약점이 있는 Java 코드입니다:

```java
void f() { }
```

이 코드는 다음과 같은 취약점이 있습니다:
- 취약점 ID: 79
- 취약점 설명: desc



취약점을 수정한 코드를 제공해주세요. 코드는 전체 메소드를 포함해야 합니다.".
Proof. vm_compute. reflexivity. Qed.

Example format_missing_key :
  Prompt.str_format (Examples.env_of None Examples.never) (PyStr.lit "a {b} c") []
  = Py.Err (Py.KeyError (PyStr.lit "b")).
Proof. vm_compute. reflexivity. Qed.

Example format_escaped_braces :
  Prompt.str_format (Examples.env_of None Examples.never) (PyStr.lit "{{{x}}}")
    [(PyStr.lit "x", Py.VS (Py.SInt 7))]
  = Py.Ok (PyStr.lit "{7}").
Proof. vm_compute. reflexivity. Qed.

(** ** CodeBLEU scoring ([utils/evaluation.py]) *)

(** C4. [calculate_code_bleu] imports the library, calls [calc_codebleu]
    with the reference code as the only reference, the generated code
    as the only prediction, the language [java] and four weights of
    one quarter, and returns the [codebleu] field of the result; it
    returns [None] exactly when the import raises or the computation
    raises (the field lookup included). *)
Theorem calculate_code_bleu_spec (E : Eff.env) (R : Type)
    (generated_code reference_code : Py.pyval) (w : Eff.world) :
  let imported := Eff.ext_import_codebleu E (Eff.now w) in
  let computed :=
    Eff.ext_calc_codebleu E (S (Eff.now w)) [reference_code] [generated_code]
      (PyStr.lit "java") (Q2Qc (1 # 4), Q2Qc (1 # 4), Q2Qc (1 # 4), Q2Qc (1 # 4)) in
  let returned :=
    (@Evaluation.calculate_code_bleu E R generated_code reference_code w).1 in
  returned = Py.Val
    match imported, computed with
    | Py.Ok _, Py.Ok result => Py.dict_get (PyStr.lit "codebleu") result
    | _, _ => None
    end
  ∧ (returned = Py.Val None ↔
       (∃ e, imported = Py.Err e)
       ∨ (∃ e, computed = Py.Err e)
       ∨ (∃ result, computed = Py.Ok result
                    ∧ Py.dict_get (PyStr.lit "codebleu") result = None)).
Proof.
  intros imported computed returned.
  assert (returned = Py.Val
    match imported, computed with
    | Py.Ok _, Py.Ok result => Py.dict_get (PyStr.lit "codebleu") result
    | _, _ => None
    end) as Heq.
  { subst returned imported computed.
    unfold Evaluation.calculate_code_bleu, Py.call, Py.try_except, Py.bind, Eff.ask,
      Eff.emit, Eff.log, Py.modify, Py.py_return, Py.py_raise, Evaluation.codebleu_weights.
    simpl.
    destruct (Eff.ext_import_codebleu E (Eff.now w)) as [[]|e]; simpl.
    - destruct (Eff.ext_calc_codebleu E (S (Eff.now w)) _ _ _ _) as [result|e]; simpl.
      + destruct (Py.dict_get (PyStr.lit "codebleu") result); done.
      + by destruct (Py.is_ImportError e).
    - by destruct (Py.is_ImportError e). }
  split; [exact Heq|]. rewrite Heq. clear Heq returned.
  destruct imported as [[]|e1].
  - destruct computed as [result|e2].
    + split.
      * intros [= H]. right. right. eauto.
      * intros [[e H]|[[e H]|(r & [= <-] & H)]]; [done..|]. by rewrite H.
    + split; [|done]. intros _. right. left. eauto.
  - split; [|done]. intros _. left. eauto.
Qed.

Example calculate_code_bleu_installed :
  (@Evaluation.calculate_code_bleu (Examples.env_of None Examples.never) unit
     (Py.VS (Py.SStr (PyStr.lit "int x;"))) (Py.VS (Py.SStr (PyStr.lit "int y;")))
     Examples.world0).1
  = Py.Val (Some (Q2Qc (1 # 2))).
Proof. vm_compute. reflexivity. Qed.
(** ** Locating and replacing a method ([utils/file_utils.py]) *)

Section FileUtilsFacts.
Import PyStr Py Eff FileUtils.
Context (E : env).

Lemma read_file_run {R} (file_path : list N) (w : world) :
  @read_file E R file_path w
  = match read_at E (files w) file_path (now w) with
    | Ok text => (Val (Some text), tick w)
    | Err _ =>
        (Val None,
         World (files w) (S (now w)) (trace w ++ [EvLog ERROR "file read error" file_path]))
    end.
Proof.
  unfold read_file. destruct w as [fs t tr]. py_unfold.
  by destruct (read_at E _ file_path t).
Qed.

(** *** The first line the pattern matches *)

Lemma first_match_spec method_name lines start i :
  first_match E method_name start lines = Some i ↔
  ∃ k line, i = (start + k)%nat ∧ lines !! k = Some line
            ∧ method_pattern_search E method_name line = true
            ∧ ∀ j l, (j < k)%nat → lines !! j = Some l →
                     method_pattern_search E method_name l = false.
Proof.
  revert start. induction lines as [|line lines IH]; intros start; simpl.
  - split; [done|]. by intros (k & l & _ & Hk & _).
  - destruct (method_pattern_search E method_name line) eqn:Hm.
    + split.
      * intros [= <-]. exists 0%nat, line. repeat split; [lia|done|]. intros; lia.
      * intros (k & l & -> & Hk & Hl & Hmin). destruct k as [|k]; [f_equal; lia|].
        specialize (Hmin 0%nat line). rewrite Hmin in Hm; [done|lia|done].
    + rewrite IH. split.
      * intros (k & l & -> & Hk & Hl & Hmin). exists (S k), l.
        repeat split; [lia|done|done|]. intros [|j] l' Hj Hl'; simpl in Hl'.
        -- by injection Hl' as <-.
        -- apply (Hmin j); [lia|done].
      * intros (k & l & -> & Hk & Hl & Hmin). destruct k as [|k]; simpl in Hk.
        -- injection Hk as <-. congruence.
        -- exists k, l. repeat split; [lia|done|done|].
           intros j l' Hj Hl'. apply (Hmin (S j)); [lia|done].
Qed.

Lemma first_match_locates method_name lines i :
  first_match E method_name 0 lines = Some i →
  pattern_locates E lines method_name (i + 1).
Proof.
  intros (k & line & -> & Hk & Hl & Hmin)%first_match_spec.
  exists k, line. split; [lia|done].
Qed.

Lemma first_match_None method_name lines start :
  first_match E method_name start lines = None →
  ∀ line, ¬ pattern_locates E lines method_name line.
Proof.
  intros Hnone line (i & text & -> & Hi & Ht & Hmin).
  assert (first_match E method_name start lines = Some (start + i)%nat) as Hsome.
  { apply first_match_spec. by exists i, text. }
  congruence.
Qed.

Lemma pattern_locates_unique method_name lines a b :
  pattern_locates E lines method_name a → pattern_locates E lines method_name b → a = b.
Proof.
  intros (i & ti & -> & Hi & Hti & Hmi) (j & tj & -> & Hj & Htj & Hmj).
  destruct (decide (i < j)%nat) as [Hlt|Hge].
  - specialize (Hmj i ti Hlt Hi). congruence.
  - destruct (decide (j < i)%nat) as [Hlt|Hge'].
    + specialize (Hmi j tj Hlt Hj). congruence.
    + f_equal. lia.
Qed.

(** *** The first method of a name *)

Lemma filter_first {A} (P : A → Prop) `{!∀ x, Decision (P x)} (l : list A) m r :
  filter P l = m :: r →
  ∃ before after, l = before ++ m :: after ∧ P m ∧ ∀ x, x ∈ before → ¬ P x.
Proof.
  induction l as [|x l IH]; [done|].
  rewrite filter_cons. destruct (decide (P x)) as [HP|HP].
  - intros [= -> Hr]. exists [], l. split; [done|]. split; [done|].
    intros y Hy. by apply elem_of_nil in Hy.
  - intros (before & after & -> & Hm & Hb)%IH.
    exists (x :: before), after. split; [done|]. split; [done|].
    intros y [->|Hy]%elem_of_cons; auto.
Qed.

Lemma filter_none {A} (P : A → Prop) `{!∀ x, Decision (P x)} (l : list A) :
  filter P l = [] → ∀ x, x ∈ l → ¬ P x.
Proof.
  intros Hf x Hx HP.
  assert (x ∈ filter P l) as Hin by (by apply list_elem_of_filter).
  rewrite Hf in Hin. by apply elem_of_nil in Hin.
Qed.

Lemma first_method_Some classes method_name m :
  first_method classes method_name = Some m → first_named classes method_name m.
Proof.
  induction classes as [|methods classes IH]; [done|]. simpl.
  destruct (filter _ methods) as [|m' r] eqn:Hf.
  - intros (before & after & Hc & Hm & Hb)%IH.
    exists (methods ++ before), after. simpl. rewrite Hc, <- app_assoc.
    split; [done|]. split; [done|].
    intros x [Hx|Hx]%elem_of_app; [|by apply Hb].
    by apply (filter_none _ _ Hf).
  - intros [= ->]. apply filter_first in Hf as (before & after & -> & Hm & Hb).
    exists before, (after ++ concat classes). simpl. rewrite <- app_assoc.
    split; [done|]. split; [done|]. exact Hb.
Qed.

Lemma first_method_None classes method_name :
  first_method classes method_name = None →
  ∀ m, m ∈ concat classes → m_name m ≠ method_name.
Proof.
  induction classes as [|methods classes IH]; simpl.
  - intros _ m Hm. by apply elem_of_nil in Hm.
  - destruct (filter _ methods) as [|m' r] eqn:Hf; [|done].
    intros Hnone m [Hm|Hm]%elem_of_app.
    + by apply (filter_none _ _ Hf).
    + by apply IH.
Qed.

Lemma first_named_unique classes method_name m m' :
  first_named classes method_name m → first_named classes method_name m' → m = m'.
Proof.
  intros (b1 & a1 & H1 & Hn1 & Hb1) (b2 & a2 & H2 & Hn2 & Hb2).
  rewrite H1 in H2. clear H1.
  revert b2 H2 Hb2. induction b1 as [|x b1 IH]; intros b2 H2 Hb2.
  - destruct b2 as [|y b2]; simpl in H2.
    + by injection H2.
    + injection H2 as <- _. exfalso. apply (Hb2 m); [apply elem_of_cons; by left|done].
  - destruct b2 as [|y b2]; simpl in H2.
    + injection H2 as -> _. exfalso. apply (Hb1 m'); [apply elem_of_cons; by left|done].
    + injection H2 as <- H2. apply (IH (λ z Hz, Hb1 z (list_elem_of_further _ _ _ Hz)) b2 H2).
      intros z Hz. apply Hb2. by apply list_elem_of_further.
Qed.

Lemma first_named_elem classes method_name m :
  first_named classes method_name m → m ∈ concat classes ∧ m_name m = method_name.
Proof.
  intros (b & a & -> & Hn & _). split; [|done].
  apply elem_of_app. right. apply elem_of_cons. by left.
Qed.

Lemma parser_locates_unique content method_name a b :
  parser_locates E content method_name a → parser_locates E content method_name b → a = b.
Proof.
  intros (c1 & m1 & Hc1 & Hf1 & Hp1 & _) (c2 & m2 & Hc2 & Hf2 & Hp2 & _).
  rewrite Hc1 in Hc2. injection Hc2 as <-.
  rewrite (first_named_unique _ _ _ _ Hf1 Hf2) in Hp1. congruence.
Qed.

(** *** Brace counting *)

Lemma net_braces_app ls ls' :
  net_braces (ls ++ ls') = (net_braces ls + net_braces ls')%Z.
Proof. induction ls as [|l ls IH]; simpl; [lia|]. rewrite IH. lia. Qed.

Lemma net_braces_delta line :
  net_braces [line] = brace_delta line.
Proof. unfold brace_delta, count. simpl. lia. Qed.

Lemma lines_between_S lines a b line :
  (a ≤ b)%nat → lines !! b = Some line →
  lines_between lines a (S b) = lines_between lines a b ++ [line].
Proof.
  intros Hab Hb. unfold lines_between.
  replace (S b - a)%nat with (S (b - a)) by lia.
  apply take_S_r. rewrite lookup_drop. by replace (a + (b - a))%nat with b by lia.
Qed.

Lemma scan_braces_spec lines start i rest brace_count :
  (0 < start)%nat →
  (start - 1 ≤ i)%nat →
  rest = drop i lines →
  brace_count = net_braces (lines_between lines (start - 1) i) →
  match scan_braces start i brace_count rest with
  | Some end_pos =>
      (i < end_pos ≤ length lines)%nat ∧ (start < end_pos)%nat
      ∧ (net_braces (lines_between lines (start - 1) end_pos) ≤ 0)%Z
      ∧ ∀ e, (i < e < end_pos)%nat → (start < e)%nat →
             (0 < net_braces (lines_between lines (start - 1) e))%Z
  | None =>
      ∀ e, (i < e ≤ length lines)%nat → (start < e)%nat →
           (0 < net_braces (lines_between lines (start - 1) e))%Z
  end.
Proof.
  intros Hstart.
  revert i brace_count. induction rest as [|line rest IH]; intros i brace_count Hi Hrest ->.
  - simpl. intros e He _.
    assert (length (drop i lines) = 0%nat) as Hlen by (by rewrite <- Hrest).
    rewrite length_drop in Hlen. lia.
  - assert (lines !! i = Some line) as Hline.
    { rewrite <- (Nat.add_0_r i), <- lookup_drop, <- Hrest. done. }
    assert (rest = drop (S i) lines) as Hrest'.
    { rewrite <- (drop_drop lines 1 i)%nat || idtac.
      replace (S i) with (i + 1)%nat by lia. rewrite <- drop_drop, <- Hrest. done. }
    assert (i < length lines)%nat as Hlt by (by eapply lookup_lt_Some).
    pose proof (lines_between_S lines (start - 1) i line Hi Hline) as HS.
    simpl.
    set (bc := (net_braces (lines_between lines (start - 1) i) + brace_delta line)%Z).
    assert (bc = net_braces (lines_between lines (start - 1) (S i))) as Hbc.
    { unfold bc. rewrite HS, net_braces_app, net_braces_delta. done. }
    destruct ((bc <=? 0)%Z && bool_decide (start - 1 < i)%nat) eqn:Hstop.
    + apply andb_true_iff in Hstop as [Hle%Z.leb_le Hgt%bool_decide_eq_true].
      replace (i + 1)%nat with (S i) by lia.
      split; [lia|]. split; [lia|]. split; [lia|]. intros e He. lia.
    + specialize (IH (S i) bc ltac:(lia) Hrest' Hbc).
      assert (∀ e, e = S i → (start < e)%nat →
                   (0 < net_braces (lines_between lines (start - 1) e))%Z) as Hhere.
      { intros e -> Hse. apply andb_false_iff in Hstop as [Hle|Hgt].
        - apply Z.leb_gt in Hle. lia.
        - apply bool_decide_eq_false in Hgt. lia. }
      destruct (scan_braces start (S i) bc rest) as [end_pos|].
      * destruct IH as (H1 & H2 & H3 & H4). split; [lia|]. split; [done|]. split; [done|].
        intros e He Hse. destruct (decide (e = S i)) as [->|Hne]; [by apply Hhere|].
        apply H4; [lia|done].
      * intros e He Hse. destruct (decide (e = S i)) as [->|Hne]; [by apply Hhere|].
        apply IH; [lia|done].
Qed.

Lemma method_end_closes lines start :
  (0 < start)%nat → closes_at lines start (method_end lines start).
Proof.
  intros Hstart. unfold method_end.
  pose proof (scan_braces_spec lines start (start - 1) (drop (start - 1) lines) 0
                Hstart ltac:(lia) eq_refl) as Hscan.
  assert (0%Z = net_braces (lines_between lines (start - 1) (start - 1))) as H0.
  { unfold lines_between. by rewrite Nat.sub_diag, take_0. }
  specialize (Hscan H0).
  destruct (scan_braces start (start - 1) 0 (drop (start - 1) lines)) as [end_pos|]; simpl.
  - left. destruct Hscan as (H1 & H2 & H3 & H4). split; [lia|]. split; [done|].
    intros e He. apply H4; lia.
  - right. split; [done|]. intros e He. apply Hscan; lia.
Qed.

Lemma closes_at_unique lines start a b :
  closes_at lines start a → closes_at lines start b → a = b.
Proof.
  intros [(Ha & Hna & Hma)|[-> Hma]] [(Hb & Hnb & Hmb)|[-> Hmb]].
  - destruct (decide (a < b)%nat) as [Hlt|Hge].
    + specialize (Hmb a ltac:(lia)). lia.
    + destruct (decide (b < a)%nat) as [Hlt|Hge']; [|lia].
      specialize (Hma b ltac:(lia)). lia.
  - specialize (Hmb a ltac:(lia)). lia.
  - specialize (Hma b ltac:(lia)). lia.
  - done.
Qed.

(** *** The run of [find_method_in_file] *)

(** What [find_method_in_file] returns, from the text read. *)
Definition located (content method_name : list N) : option (nat * nat * list N) :=
  let lines := splitlines content in
  let by_pattern :=
    match first_match E method_name 0 lines with
    | Some i => Some (method_span lines (i + 1))
    | None => None
    end in
  match ext_javalang E content with
  | Ok classes =>
      match first_method classes method_name with
      | Some method_declaration =>
          match m_position method_declaration with
          | Some (S line) => Some (method_span lines (S line))
          | _ => by_pattern
          end
      | None => by_pattern
      end
  | Err _ => by_pattern
  end.

Lemma find_method_in_file_run {R} (file_path method_name : list N) (w : world) :
  ∃ l,
    @find_method_in_file E R file_path method_name w
    = (Val match read_at E (files w) file_path (now w) with
           | Ok (c :: content) => located (c :: content) method_name
           | _ => None
           end,
       World (files w) (S (now w)) (trace w ++ l))
    ∧ ∀ e, e ∈ l → ∃ lvl msg arg, e = EvLog lvl msg arg.
Proof.
  unfold find_method_in_file.
  unfold call at 1, try_except at 1, bind at 1. rewrite read_file_run.
  destruct w as [fs t tr]. unfold now, files, trace, tick.
  destruct (read_at E _ file_path t) as [[|c content]|e]; simpl.
  - exists []. rewrite app_nil_r. split; [done|]. intros e He. by apply elem_of_nil in He.
  - unfold located. py_unfold.
    destruct (ext_javalang E (c :: content)) as [classes|e]; py_unfold.
    + destruct (first_method classes method_name) as [decl|]; py_unfold.
      * destruct (m_position decl) as [[|line]|]; py_unfold.
        -- destruct (first_match E method_name 0 _);
             (exists []; rewrite app_nil_r; split; [done|];
              intros e He; by apply elem_of_nil in He).
        -- exists []. rewrite app_nil_r. split; [done|].
           intros e He. by apply elem_of_nil in He.
        -- destruct (first_match E method_name 0 _);
             (eexists [_]; split; [done|];
              intros e ->%list_elem_of_singleton; by eexists _, _, _).
      * destruct (first_match E method_name 0 _);
          (exists []; rewrite app_nil_r; split; [done|];
           intros e He; by apply elem_of_nil in He).
    + destruct (first_match E method_name 0 _);
        (eexists [_]; split; [done|];
         intros e' ->%list_elem_of_singleton; by eexists _, _, _).
  - eexists [_]. split; [done|]. intros e' ->%list_elem_of_singleton. by eexists _, _, _.
Qed.

Lemma method_span_spec lines start :
  (0 < start)%nat →
  ∃ end_pos,
    method_span lines start
    = (start, end_pos, join [10] (lines_between lines (start - 1) end_pos))
    ∧ closes_at lines start end_pos.
Proof.
  intros Hstart. exists (method_end lines start). split; [done|].
  by apply method_end_closes.
Qed.

Lemma located_spec content method_name :
  let lines := splitlines content in
  match located content method_name with
  | Some (start, end_pos, code) =>
      (parser_locates E content method_name start
       ∨ ((∀ line, ¬ parser_locates E content method_name line)
          ∧ pattern_locates E lines method_name start))
      ∧ closes_at lines start end_pos
      ∧ code = join [10] (lines_between lines (start - 1) end_pos)
  | None =>
      (∀ line, ¬ parser_locates E content method_name line)
      ∧ (∀ line, ¬ pattern_locates E lines method_name line)
  end.
Proof.
  intros lines. unfold located. fold lines.
  assert (∀ absent : ∀ line, ¬ parser_locates E content method_name line,
    match match first_match E method_name 0 lines with
          | Some i => Some (method_span lines (i + 1))
          | None => None
          end with
    | Some (start, end_pos, code) =>
        (parser_locates E content method_name start
         ∨ ((∀ line, ¬ parser_locates E content method_name line)
            ∧ pattern_locates E lines method_name start))
        ∧ closes_at lines start end_pos
        ∧ code = join [10] (lines_between lines (start - 1) end_pos)
    | None =>
        (∀ line, ¬ parser_locates E content method_name line)
        ∧ (∀ line, ¬ pattern_locates E lines method_name line)
    end) as Hpattern.
  { intros absent. destruct (first_match E method_name 0 lines) as [i|] eqn:Hm.
    - destruct (method_span_spec lines (i + 1) ltac:(lia)) as (end_pos & -> & Hc).
      split; [|done]. right. split; [done|]. by apply first_match_locates.
    - split; [done|]. by eapply first_match_None. }
  destruct (ext_javalang E content) as [classes|e] eqn:Hparse.
  - destruct (first_method classes method_name) as [decl|] eqn:Hfirst.
    + apply first_method_Some in Hfirst.
      destruct (m_position decl) as [[|line]|] eqn:Hpos.
      * apply Hpattern. intros line (c & m & Hc & Hf & Hp & Hl).
        rewrite Hparse in Hc. injection Hc as <-.
        rewrite (first_named_unique _ _ _ _ Hf Hfirst) in Hp. rewrite Hpos in Hp.
        injection Hp as <-. lia.
      * destruct (method_span_spec lines (S line) ltac:(lia)) as (end_pos & -> & Hc).
        split; [|done]. left. exists classes, decl. repeat split; [done..|lia].
      * apply Hpattern. intros line (c & m & Hc & Hf & Hp & Hl).
        rewrite Hparse in Hc. injection Hc as <-.
        rewrite (first_named_unique _ _ _ _ Hf Hfirst) in Hp. congruence.
    + apply Hpattern. intros line (c & m & Hc & Hf & Hp & Hl).
      rewrite Hparse in Hc. injection Hc as <-.
      apply first_named_elem in Hf as [Hin Hname].
      by apply (first_method_None _ _ Hfirst m).
  - apply Hpattern. intros line (c & m & Hc & _). congruence.
Qed.

End FileUtilsFacts.

(** C6. [find_method_in_file] never raises and changes no file.  When
    the file cannot be read, or is empty, it returns the triple of
    [None]s.  Otherwise the parser is tried first: when [javalang]
    parses the text and the first method of that name has a position,
    its line is the start.  When the parser does not locate the method,
    the start is the first line (1-based) the method pattern matches.
    When neither locates it, the result is the triple of [None]s.  On
    success the end is the line brace counting from the start gives,
    and the code is the join of the lines from start to end. *)
Theorem find_method_in_file_spec (E : Eff.env) (R : Type)
    (file_path method_name : list N) (w : Eff.world) :
  let run := @FileUtils.find_method_in_file E R file_path method_name w in
  Eff.files run.2 = Eff.files w
  ∧ ∃ found,
      run.1 = Py.Val found
      ∧ match Eff.read_at E (Eff.files w) file_path (Eff.now w) with
        | Py.Ok content =>
            let lines := PyStr.splitlines content in
            match found with
            | Some (start, end_pos, code) =>
                content ≠ []
                ∧ (FileUtils.parser_locates E content method_name start
                   ∨ ((∀ line, ¬ FileUtils.parser_locates E content method_name line)
                      ∧ FileUtils.pattern_locates E lines method_name start))
                ∧ FileUtils.closes_at lines start end_pos
                ∧ code = PyStr.join [10] (take (end_pos - (start - 1)) (drop (start - 1) lines))
            | None =>
                content = []
                ∨ ((∀ line, ¬ FileUtils.parser_locates E content method_name line)
                   ∧ (∀ line, ¬ FileUtils.pattern_locates E lines method_name line))
            end
        | Py.Err _ => found = None
        end.
Proof.
  intros run.
  destruct (find_method_in_file_run E (R := R) file_path method_name w) as (l & Hrun & _).
  subst run. rewrite Hrun. simpl. split; [done|].
  eexists. split; [reflexivity|].
  destruct (Eff.read_at E (Eff.files w) file_path (Eff.now w)) as [[|c content]|e]; [by left| |done].
  pose proof (located_spec E (c :: content) method_name) as Hloc. simpl in Hloc.
  destruct (located E (c :: content) method_name) as [[[start end_pos] code]|].
  - by split.
  - by right.
Qed.

(** On a file of four lines in which the parser finds nothing, the
    method is located by the pattern on line 2 and ends on line 3. *)
Example find_method_in_file_example :
  (@FileUtils.find_method_in_file (Examples.env_of None Examples.never) unit
     (PyStr.lit "A.java") (PyStr.lit "f")
     (Eff.World {[ PyStr.lit "A.java" := PyStr.lit "class A {
  void f() {
  }
}" ]} 0 [])).1
  = Py.Val (Some (2%nat, 3%nat, PyStr.lit "  void f() {
  }")).
Proof. vm_compute. reflexivity. Qed.
Section ReplaceFacts.
Import PyStr Py Eff FileUtils.

(** *** Lines and newlines *)

Lemma split_on_no_sep sep s : sep ∉ s → split_on sep s = [s].
Proof.
  induction s as [|c s IH]; intros Hs; simpl; [done|].
  apply not_elem_of_cons in Hs as [Hc Hs].
  destruct (N.eqb_spec c sep); [congruence|]. by rewrite IH.
Qed.

Lemma split_on_app sep l rest :
  sep ∉ l →
  split_on sep (l ++ sep :: rest) = l :: split_on sep rest.
Proof.
  induction l as [|c l IH]; intros Hl; simpl.
  - by rewrite N.eqb_refl.
  - apply not_elem_of_cons in Hl as [Hc Hl].
    destruct (N.eqb_spec c sep); [congruence|]. by rewrite IH.
Qed.

Lemma split_on_join sep parts :
  parts ≠ [] → (∀ l, l ∈ parts → sep ∉ l) →
  split_on sep (join [sep] parts) = parts.
Proof.
  induction parts as [|l parts IH]; intros Hne Hparts; [done|].
  destruct parts as [|l' parts].
  - simpl. apply split_on_no_sep. apply Hparts. apply elem_of_cons. by left.
  - change (join [sep] (l :: l' :: parts)) with (l ++ sep :: join [sep] (l' :: parts)).
    rewrite split_on_app by (apply Hparts; apply elem_of_cons; by left).
    f_equal. apply IH; [done|]. intros x Hx. apply Hparts. apply elem_of_cons. by right.
Qed.

(** A line is a text without line boundaries. *)
Definition is_line (l : list N) : Prop := ∀ c, c ∈ l → is_linebreak c = false.

Lemma splitlines_from_clean n : ∀ s cur_rev,
  (length s ≤ n)%nat →
  is_line cur_rev →
  ∀ l, l ∈ splitlines_from cur_rev s → is_line l.
Proof.
  induction n as [|n IH]; intros s cur_rev Hn Hcur l Hl c Hc.
  - destruct s; [|simpl in Hn; lia]. simpl in Hl.
    destruct cur_rev as [|x cur]; [by apply elem_of_nil in Hl|].
    apply list_elem_of_singleton in Hl as ->. apply Hcur.
    apply list_elem_of_In. apply list_elem_of_In in Hc. by apply in_rev.
  - destruct s as [|x s].
    + simpl in Hl. destruct cur_rev as [|y cur]; [by apply elem_of_nil in Hl|].
      apply list_elem_of_singleton in Hl as ->. apply Hcur.
      apply list_elem_of_In. apply list_elem_of_In in Hc. by apply in_rev.
    + simpl in Hn. cbn [splitlines_from] in Hl.
      destruct (is_linebreak x) eqn:Hx.
      * apply elem_of_cons in Hl as [->|Hl].
        { apply Hcur. apply list_elem_of_In. apply list_elem_of_In in Hc. by apply in_rev. }
        destruct s as [|d s''].
        -- simpl in Hl. by apply elem_of_nil in Hl.
        -- destruct ((x =? 13) && (d =? 10)).
           ++ refine (IH s'' [] _ _ l Hl c Hc); [simpl in Hn; lia|].
              intros ? H. by apply elem_of_nil in H.
           ++ refine (IH (d :: s'') [] _ _ l Hl c Hc); [lia|].
              intros ? H. by apply elem_of_nil in H.
      * refine (IH s (x :: cur_rev) _ _ l Hl c Hc); [lia|].
        intros y [->|Hy]%elem_of_cons; auto.
Qed.

Lemma splitlines_lines s l : l ∈ splitlines s → is_line l.
Proof.
  apply (splitlines_from_clean (length s) s [] (le_n _)).
  intros c H. by apply elem_of_nil in H.
Qed.

Lemma is_line_no_newline l : is_line l → 10 ∉ l.
Proof. intros Hl Hc. specialize (Hl 10 Hc). by vm_compute in Hl. Qed.

Lemma splitlines_from_line l cur_rev s :
  is_line l → splitlines_from cur_rev (l ++ s) = splitlines_from (rev l ++ cur_rev) s.
Proof.
  revert cur_rev. induction l as [|c l IH]; intros cur_rev Hl; [done|].
  simpl. rewrite (Hl c) by (apply elem_of_cons; by left).
  rewrite IH by (intros x Hx; apply Hl; by apply list_elem_of_further).
  by rewrite <- app_assoc.
Qed.

Lemma splitlines_from_newline cur_rev s :
  splitlines_from cur_rev (10 :: s) = rev cur_rev :: splitlines_from [] s.
Proof. simpl. by destruct s. Qed.

(** Joined by newlines and split again, lines come back, except for an
    empty last line. *)
Lemma splitlines_join parts :
  (∀ l, l ∈ parts → is_line l) →
  splitlines (join [10] parts) = without_final_empty parts.
Proof.
  induction parts as [|l parts IH]; intros Hparts; [done|].
  assert (is_line l) as Hl by (apply Hparts; apply elem_of_cons; by left).
  destruct parts as [|l' parts].
  - change (join [10] [l]) with l. unfold splitlines. rewrite <- (app_nil_r l) at 1.
    rewrite splitlines_from_line by done. rewrite app_nil_r.
    destruct l as [|c l]; [done|].
    change (without_final_empty [c :: l]) with [c :: l].
    destruct (rev (c :: l)) as [|x r] eqn:Hr.
    + apply (f_equal length) in Hr. rewrite length_rev in Hr. done.
    + cbn [splitlines_from]. by rewrite <- Hr, rev_involutive.
  - change (join [10] (l :: l' :: parts)) with (l ++ 10 :: join [10] (l' :: parts)).
    change (without_final_empty (l :: l' :: parts))
      with (l :: without_final_empty (l' :: parts)).
    unfold splitlines. rewrite splitlines_from_line by done.
    rewrite splitlines_from_newline, app_nil_r, rev_involutive. f_equal.
    apply IH. intros x Hx. apply Hparts. by apply list_elem_of_further.
Qed.

Context (E : env).

(** *** Writing a file *)

Lemma write_file_run {R} (p content : list N) (w : world) :
  @write_file E R p content w
  = match fails E (MakeDirs (dirname p)) (now w) with
    | Some _ =>
        (Val false,
         World (files w) (S (now w)) (trace w ++ [EvLog ERROR "file write error" p]))
    | None =>
        match write_status_at E [] p content (S (now w)) with
        | Written =>
            (Val true,
             World (<[p := content]> (files w)) (S (S (now w)))
               ((trace w ++ [EvMakedirs (dirname p)]) ++ [EvWrite p content]))
        | Untouched _ =>
            (Val false,
             World (files w) (S (S (now w)))
               ((trace w ++ [EvMakedirs (dirname p)]) ++ [EvLog ERROR "file write error" p]))
        | Damaged _ remains =>
            (Val false,
             World (<[p := remains]> (files w)) (S (S (now w)))
               ((trace w ++ [EvMakedirs (dirname p)]) ++ [EvLog ERROR "file write error" p]))
        end
    end.
Proof.
  unfold write_file. destruct w as [fs t tr]. py_unfold.
  destruct (fails E (MakeDirs (dirname p)) t); py_unfold; [done|].
  by destruct (write_status_at E [] p content (S t)).
Qed.

Lemma writes_app tr tr' : writes (tr ++ tr') = writes tr ++ writes tr'.
Proof. unfold writes. apply omap_app. Qed.

Lemma writes_logs tr l :
  (∀ e, e ∈ l → ∃ lvl msg arg, e = EvLog lvl msg arg) → writes (tr ++ l) = writes tr.
Proof.
  intros Hl. rewrite writes_app.
  assert (writes l = []) as ->; [|by rewrite app_nil_r].
  induction l as [|e l IH]; [done|].
  destruct (Hl e) as (lvl & msg & arg & ->); [apply elem_of_cons; by left|].
  simpl. apply IH. intros e' He'. apply Hl. by apply list_elem_of_further.
Qed.

End ReplaceFacts.

(** C10, as amended.  Let [find_method_in_file] find the method at
    lines [start..end], and let the file be read a second time.  The
    new lines are the lines before [start], the lines of the new code
    and the lines after [end]; the new text is these lines joined by
    newlines, and its lines are the new lines again (but for an empty
    last line, which [splitlines] does not give back).  The directory of the target - the output path, or
    the file itself without one - is created first: when that fails,
    as it does for a file name without a directory, the function
    returns [False] and nothing is written.  Otherwise the new text is
    written: on success the function returns [True], the target holds
    the new text and no other file changes; when the file cannot be
    opened the function returns [False] and no file changes; when the
    write fails after the file was opened it returns [False] and the
    target is left with what the failed write left.  When the method is
    not found or the file cannot be read, the function returns [False]
    and no file changes and nothing is written. *)
Theorem replace_method_in_file_spec (E : Eff.env) (R : Type)
    (file_path method_name new_method_code : list N) (output_path : option (list N))
    (w : Eff.world) :
  let run := @FileUtils.replace_method_in_file E R file_path method_name new_method_code
               output_path w in
  let target := match output_path with
                | Some (c :: p) => c :: p
                | _ => file_path
                end in
  let t := Eff.now w in
  match (@FileUtils.find_method_in_file E bool file_path method_name w).1,
        Eff.read_at E (Eff.files w) file_path (S t) with
  | Py.Val (Some (start_line, end_line, _)), Py.Ok content =>
      let lines := PyStr.splitlines content in
      let new_lines :=
        take (start_line - 1) lines ++ PyStr.splitlines new_method_code
          ++ drop end_line lines in
      let new_content := PyStr.join [10] new_lines in
      PyStr.splitlines new_content = PyStr.without_final_empty new_lines
      ∧ (new_lines ≠ [] → PyStr.split_on 10 new_content = new_lines)
      ∧ match Eff.fails E (Eff.MakeDirs (PyStr.dirname target)) (S (S t)) with
        | Some _ =>
            run.1 = Py.Val false
            ∧ Eff.files run.2 = Eff.files w
            ∧ Eff.writes (Eff.trace run.2) = Eff.writes (Eff.trace w)
        | None =>
            match Eff.write_status_at E [] target new_content (S (S (S t))) with
            | Eff.Written =>
                run.1 = Py.Val true
                ∧ Eff.files run.2 = <[target := new_content]> (Eff.files w)
                ∧ Eff.writes (Eff.trace run.2)
                  = Eff.writes (Eff.trace w) ++ [(target, new_content)]
            | Eff.Untouched _ =>
                run.1 = Py.Val false
                ∧ Eff.files run.2 = Eff.files w
                ∧ Eff.writes (Eff.trace run.2) = Eff.writes (Eff.trace w)
            | Eff.Damaged _ remains =>
                run.1 = Py.Val false
                ∧ Eff.files run.2 = <[target := remains]> (Eff.files w)
                ∧ Eff.writes (Eff.trace run.2) = Eff.writes (Eff.trace w)
            end
        end
  | _, _ =>
      run.1 = Py.Val false
      ∧ Eff.files run.2 = Eff.files w
      ∧ Eff.writes (Eff.trace run.2) = Eff.writes (Eff.trace w)
  end.
Proof.
  intros run target t.
  destruct (find_method_in_file_run E (R := bool) file_path method_name w)
    as (l1 & Hfind & Hl1).
  assert (run = @FileUtils.replace_method_in_file E R file_path method_name new_method_code
                  output_path w) as Hrun by done.
  clearbody run.
  unfold FileUtils.replace_method_in_file in Hrun.
  unfold Py.call at 1, Py.try_except at 1, Py.bind at 1 in Hrun.
  rewrite Hfind in Hrun |- *. clear Hfind.
  destruct w as [fs t0 tr]. subst t. cbn [Eff.now Eff.files Eff.trace fst snd] in *.
  assert (∀ lvl msg arg,
    Eff.writes ((tr ++ l1) ++ [Eff.EvLog lvl msg arg]) = Eff.writes tr) as Hquiet.
  { intros lvl msg arg. rewrite <- app_assoc. apply writes_logs.
    intros e [He|He]%elem_of_app;
      [by apply Hl1|apply list_elem_of_singleton in He as ->; by eexists _, _, _]. }
  assert (Eff.writes l1 = []) as Hquiet1 by (by apply (writes_logs [])).
  destruct (Eff.read_at E _ file_path t0) as [[|c0 content0]|e0] eqn:Hread0.
  1,3: py_unfold in Hrun; subst run; cbn [fst snd Eff.files Eff.trace];
       split; [done|]; split; [done|]; apply Hquiet.
  destruct (located E (c0 :: content0) method_name) as [[[start_line end_line] code]|].
  2: { py_unfold in Hrun; subst run; cbn [fst snd Eff.files Eff.trace].
       split; [done|]; split; [done|]; apply Hquiet. }
  unfold Py.bind at 1 in Hrun. rewrite read_file_run in Hrun.
  cbn [Eff.now Eff.files Eff.trace Eff.tick] in Hrun.
  destruct (Eff.read_at E _ file_path (S t0)) as [content|e1] eqn:Hread1.
  2: { py_unfold in Hrun; subst run; cbn [fst snd Eff.files Eff.trace].
       split; [done|]; split; [done|]; apply Hquiet. }
  assert (content = c0 :: content0) as ->.
  { revert Hread0 Hread1. unfold Eff.read_at.
    destruct (Eff.fails E (Eff.ReadFile file_path) t0); [done|].
    destruct (Eff.fails E (Eff.ReadFile file_path) (S t0)); [done|].
    destruct (fs !! file_path); [|done]. congruence. }
  cbv beta iota zeta.
  set (lines := PyStr.splitlines (c0 :: content0)) in *.
  set (new_lines := take (start_line - 1) lines ++ PyStr.splitlines new_method_code
                      ++ drop end_line lines) in *.
  assert (∀ l, l ∈ new_lines → is_line l) as Hlines.
  { intros l Hl. unfold new_lines in Hl. rewrite !elem_of_app in Hl.
    destruct Hl as [Hl|[Hl|Hl]].
    - apply subseteq_take in Hl. by apply (splitlines_lines (c0 :: content0)).
    - by apply (splitlines_lines new_method_code).
    - apply subseteq_drop in Hl. by apply (splitlines_lines (c0 :: content0)). }
  split; [by apply splitlines_join|].
  split.
  { intros Hne. apply split_on_join; [done|].
    intros l Hl. apply is_line_no_newline. by apply Hlines. }
  unfold Py.bind at 1 in Hrun.
  assert (match output_path with
          | Some p => if bool_decide (p = []) then file_path else p
          | None => file_path
          end = target) as Htarget.
  { subst target. by destruct output_path as [[|? ?]|]. }
  rewrite Htarget in Hrun.
  rewrite write_file_run in Hrun. cbn [Eff.now Eff.files Eff.trace Eff.tick] in Hrun.
  destruct (Eff.fails E (Eff.MakeDirs (PyStr.dirname target)) (S (S t0))).
  { py_unfold in Hrun; subst run; cbn [fst snd Eff.files Eff.trace].
    split; [done|]; split; [done|]; apply Hquiet. }
  destruct (Eff.write_status_at E [] target _ (S (S (S t0)))).
  - py_unfold in Hrun; subst run; cbn [fst snd Eff.files Eff.trace].
    split; [done|]; split; [done|].
    rewrite !writes_app, Hquiet1. simpl. by rewrite !app_nil_r.
  - py_unfold in Hrun; subst run; cbn [fst snd Eff.files Eff.trace].
    split; [done|]; split; [done|].
    rewrite !writes_app, Hquiet1. simpl. by rewrite !app_nil_r.
  - py_unfold in Hrun; subst run; cbn [fst snd Eff.files Eff.trace].
    split; [done|]; split; [done|].
    rewrite !writes_app, Hquiet1. simpl. by rewrite !app_nil_r.
Qed.

(** C10 as stated fails for a file named without a directory: the
    method is found, no request is refused by the disk, and yet the
    function returns [False] and the file keeps the old method, because
    [os.makedirs('')] raises. *)
Lemma replace_method_in_file_bare_name :
  let E := Examples.env_of None Examples.never in
  let w := Eff.World {[ PyStr.lit "A.java" := PyStr.lit "class A {
  void f() {
  }
}" ]} 0 [] in
  let run := @FileUtils.replace_method_in_file E unit (PyStr.lit "A.java") (PyStr.lit "f")
               (PyStr.lit "  void f() { ok(); }") None w in
  (@FileUtils.find_method_in_file E unit (PyStr.lit "A.java") (PyStr.lit "f") w).1
  = Py.Val (Some (2%nat, 3%nat, PyStr.lit "  void f() {
  }"))
  ∧ run.1 = Py.Val false
  ∧ Eff.files run.2 = Eff.files w.
Proof. vm_compute. done. Qed.

(** With a directory in the path the replacement is written. *)
Example replace_method_in_file_example :
  let E := Examples.env_of None Examples.never in
  let w := Eff.World {[ PyStr.lit "src/A.java" := PyStr.lit "class A {
  void f() {
  }
}" ]} 0 [] in
  let run := @FileUtils.replace_method_in_file E unit (PyStr.lit "src/A.java") (PyStr.lit "f")
               (PyStr.lit "  void f() { ok(); }") None w in
  run.1 = Py.Val true
  ∧ Eff.files run.2 !! PyStr.lit "src/A.java" = Some (PyStr.lit "class A {
  void f() { ok(); }
}").
Proof. vm_compute. done. Qed.
(** ** The evaluator ([evaluation/evaluator.py]) *)

Section EvaluateFacts.
Import PyStr Py Eff Evaluation.
Context (E : env).

(** The score [calculate_code_bleu] returns when called at time [t],
    and the time at which it returns. *)
Definition codebleu_score (t : nat) (generated reference : pyval) : option Qc :=
  match ext_import_codebleu E t with
  | Ok _ =>
      match ext_calc_codebleu E (S t) [reference] [generated] (lit "java") codebleu_weights with
      | Ok result => dict_get (lit "codebleu") result
      | Err _ => None
      end
  | Err _ => None
  end.

Definition codebleu_end (t : nat) : nat :=
  match ext_import_codebleu E t with
  | Ok _ => S (S t)
  | Err _ => S t
  end.

Lemma calculate_code_bleu_run {R} (generated reference : pyval) (w : world) :
  ∃ l,
    @calculate_code_bleu E R generated reference w
    = (Val (codebleu_score (now w) generated reference),
       World (files w) (codebleu_end (now w)) (trace w ++ l))
    ∧ Forall (λ e, ¬ after_return e) l.
Proof.
  unfold calculate_code_bleu, codebleu_score, codebleu_end. destruct w as [fs t tr]. py_unfold.
  destruct (ext_import_codebleu E t) as [[]|e1]; py_unfold.
  - destruct (ext_calc_codebleu E (S t) _ _ _ _) as [result|e2]; py_unfold.
    + destruct (dict_get (lit "codebleu") result) as [q|]; py_unfold;
        (eexists; split;
         [rewrite <- ?app_assoc; reflexivity|repeat constructor; by intros [?|?]]).
    + destruct e2; py_unfold;
        (eexists; split;
         [rewrite <- ?app_assoc; reflexivity|repeat constructor; by intros [?|?]]).
  - destruct e1; py_unfold;
      (eexists; split;
       [rewrite <- ?app_assoc; reflexivity|repeat constructor; by intros [?|?]]).
Qed.

Lemma calculate_code_bleu_value {R} (generated reference : pyval) (w : world) :
  (@calculate_code_bleu E R generated reference w).1
  = Val (codebleu_score (now w) generated reference).
Proof.
  destruct (calculate_code_bleu_run (R := R) generated reference w) as (l & -> & _). done.
Qed.

Lemma wp_calculate_code_bleu {R} generated reference w
    (Q : res R (option Qc) * world → Prop) :
  (∀ l, Forall (λ e, ¬ after_return e) l →
        Q (Val (codebleu_score (now w) generated reference),
           World (files w) (codebleu_end (now w)) (trace w ++ l))) →
  wp (calculate_code_bleu E generated reference) w Q.
Proof.
  intros HQ. destruct (calculate_code_bleu_run (R := R) generated reference w)
    as (l & Hrun & Hl).
  eapply wp_run; [exact Hrun|]. by apply HQ.
Qed.

Lemma read_at_Ok fs p t text :
  read_at E fs p t = Ok text → fails E (ReadFile p) t = None.
Proof. unfold read_at. by destruct (fails E (ReadFile p) t). Qed.

Lemma read_at_file fs p t text :
  file_at fs p = Some text → fails E (ReadFile p) t = None →
  read_at E fs p t = Ok (universal_newlines text).
Proof.
  unfold read_at, file_at. intros Hfile ->.
  destruct (path_error p); [done|]. by rewrite Hfile.
Qed.

Lemma read_at_insert_ne fs p q x t :
  q ≠ p → read_at E (<[p := x]> fs) q t = read_at E fs q t.
Proof. intros Hne. unfold read_at. by rewrite lookup_insert_ne. Qed.

Lemma file_at_insert_ne (fs : gmap (list N) (list N)) p q x :
  q ≠ p → file_at (<[p := x]> fs) q = file_at fs q.
Proof. intros Hne. unfold file_at. by rewrite lookup_insert_ne. Qed.

End EvaluateFacts.

(** Running [evaluate_fix] symbolically. *)
Ltac evaluate_fix_rule :=
  lazymatch goal with
  | |- wp (Evaluation.calculate_code_bleu _ _ _) _ _ =>
      apply wp_calculate_code_bleu; intros ? ?; wp_simpl
  | |- wp Evaluation.return_result _ _ => unfold Evaluation.return_result at 1
  | |- wp (Evaluation.set_result _ _) _ _ => unfold Evaluation.set_result at 1
  | |- wp (Evaluation.set_detail _ _) _ _ => unfold Evaluation.set_detail at 1
  | _ => wp_rule
  end.

Ltac trace_tail :=
  eexists; split; [rewrite <- ?app_assoc; reflexivity|];
  repeat first [ assumption | apply Forall_nil_2
               | apply Forall_cons_2; [by intros [?|?]|]
               | apply Forall_app_2 ].

Section EvaluateCases.
Import PyStr Py Eff Evaluation.
Context (E : env).

(** However the outside answers, [evaluate_fix] ends in one of three
    ways: it raises, because the result directory cannot be created or
    in the handler of the CodeBLEU block; it returns the result as
    created; it returns the result with the score [calculate_code_bleu]
    gave.  The tools of the statements after [return result] are never
    run. *)
Lemma evaluate_fix_cases {R} (results_dir bug_id fixed_file original_file : list N)
    (target_code project_dir : option (list N)) (w : world) :
  ∃ out w',
    @evaluate_fix E R results_dir bug_id fixed_file original_file target_code project_dir w
    = (out, w')
    ∧ (∃ l, trace w' = trace w ++ l ∧ Forall (λ e, ¬ after_return e) l)
    ∧ match out with
      | Val d =>
          d = initial_result bug_id
          ∨ ∃ fixed_code target w1 score,
              (@calculate_code_bleu E (list (list N * pyval)) (VStr fixed_code) (VStr target)
                 w1).1 = Val score
              ∧ d = scored_result bug_id score
              ∧ ∀ code, target_code = Some code → target = code
      | Raise e =>
          fails E (MakeDirs (path_join E (path_join E results_dir bug_id) (lit "evaluation")))
            (now w) = Some e
          ∨ e = AttributeError "_generate_html_report"
      | Return _ => False
      end.
Proof.
  destruct w as [fs t tr].
  wp_for (@evaluate_fix E R results_dir bug_id fixed_file original_file target_code
            project_dir) (World fs t tr).
  unfold evaluate_fix.
  repeat evaluate_fix_rule.
  all: eexists _, _; (split; [reflexivity|]); (split; [cbv beta iota; trace_tail|]).
  all: first
      [ by left
      | by right
      | right; eexists _, _, (Eff.World ∅ _ []), _;
        split; [apply (calculate_code_bleu_value E)|];
        split; [reflexivity|intros ? ?; congruence] ].
Qed.

Lemma evaluate_fix_makedirs_fails {R}
    (results_dir bug_id fixed_file original_file : list N)
    (target_code project_dir : option (list N)) (w : world) (e : exn) :
  fails E (MakeDirs (path_join E (path_join E results_dir bug_id) (lit "evaluation"))) (now w)
  = Some e →
  (@evaluate_fix E R results_dir bug_id fixed_file original_file target_code project_dir w).1
  = Raise e.
Proof.
  intros Hmk. destruct w as [fs t tr]. cbn [now] in Hmk.
  wp_for (@evaluate_fix E R results_dir bug_id fixed_file original_file target_code
            project_dir) (World fs t tr).
  unfold evaluate_fix. repeat evaluate_fix_rule. done.
Qed.

Lemma evaluate_fix_no_fixed_file {R}
    (results_dir bug_id fixed_file original_file : list N)
    (target_code project_dir : option (list N)) (w : world) :
  fails E (MakeDirs (path_join E (path_join E results_dir bug_id) (lit "evaluation"))) (now w)
  = None →
  file_at (files w) fixed_file = None →
  (@evaluate_fix E R results_dir bug_id fixed_file original_file target_code project_dir w).1
  = Val (initial_result bug_id).
Proof.
  intros Hmk Hfile. destruct w as [fs t tr]. cbn [now files] in Hmk, Hfile.
  wp_for (@evaluate_fix E R results_dir bug_id fixed_file original_file target_code
            project_dir) (World fs t tr).
  unfold evaluate_fix. repeat evaluate_fix_rule. done.
Qed.

Lemma evaluate_fix_unreadable {R}
    (results_dir bug_id fixed_file original_file : list N)
    (target_code project_dir : option (list N)) (w : world) :
  fails E (MakeDirs (path_join E (path_join E results_dir bug_id) (lit "evaluation"))) (now w)
  = None →
  (∀ t, fails E (ReadFile fixed_file) t ≠ None) →
  (@evaluate_fix E R results_dir bug_id fixed_file original_file target_code project_dir w).1
  = Val (initial_result bug_id).
Proof.
  intros Hmk Hunread. destruct w as [fs t tr]. cbn [now] in Hmk.
  wp_for (@evaluate_fix E R results_dir bug_id fixed_file original_file target_code
            project_dir) (World fs t tr).
  unfold evaluate_fix.
  repeat (evaluate_fix_rule;
          try match goal with
              | Hr : read_at E _ fixed_file _ = Ok _ |- _ =>
                  apply read_at_Ok in Hr; by apply Hunread in Hr
              end).
  all: done.
Qed.

Lemma evaluate_fix_target_unreadable {R}
    (results_dir bug_id fixed_file original_file : list N)
    (project_dir : option (list N)) (w : world) :
  fails E (MakeDirs (path_join E (path_join E results_dir bug_id) (lit "evaluation"))) (now w)
  = None →
  (∀ t, fails E (ReadFile (replace (lit "before.java") (lit "after.java") original_file)) t
        ≠ None) →
  (@evaluate_fix E R results_dir bug_id fixed_file original_file None project_dir w).1
  = Val (initial_result bug_id).
Proof.
  intros Hmk Hunread. destruct w as [fs t tr]. cbn [now] in Hmk.
  wp_for (@evaluate_fix E R results_dir bug_id fixed_file original_file None
            project_dir) (World fs t tr).
  unfold evaluate_fix.
  repeat (evaluate_fix_rule;
          try match goal with
              | Hr : read_at E _ (replace _ _ _) _ = Ok _ |- _ =>
                  apply read_at_Ok in Hr; by apply Hunread in Hr
              end).
  all: done.
Qed.

Lemma evaluate_fix_no_target_file {R}
    (results_dir bug_id fixed_file original_file : list N)
    (project_dir : option (list N)) (w : world) :
  let result_dir := path_join E (path_join E results_dir bug_id) (lit "evaluation") in
  let target_file := replace (lit "before.java") (lit "after.java") original_file in
  fails E (MakeDirs result_dir) (now w) = None →
  file_at (files w) target_file = None →
  target_file ≠ path_join E result_dir (lit "original_code.java") →
  target_file ≠ path_join E result_dir (lit "generated_code.java") →
  (@evaluate_fix E R results_dir bug_id fixed_file original_file None project_dir w).1
  = Val (initial_result bug_id).
Proof.
  intros result_dir target_file Hmk Habsent Hne1 Hne2. subst result_dir target_file.
  destruct w as [fs t tr]. cbn [now files] in Hmk, Habsent.
  wp_for (@evaluate_fix E R results_dir bug_id fixed_file original_file None
            project_dir) (World fs t tr).
  unfold evaluate_fix.
  repeat lazymatch goal with
    | |- match file_at (<[_ := _]> _) _ with _ => _ end =>
        first [ rewrite file_at_insert_ne by done | evaluate_fix_rule ]
    | _ => evaluate_fix_rule
    end.
  all: done.
Qed.

Lemma evaluate_fix_scored {R}
    (results_dir bug_id fixed_file original_file code fixed_text : list N)
    (project_dir : option (list N)) (w : world) :
  let result_dir := path_join E (path_join E results_dir bug_id) (lit "evaluation") in
  let fixed_code := universal_newlines fixed_text in
  let run :=
    @evaluate_fix E R results_dir bug_id fixed_file original_file (Some code) project_dir w in
  fails E (MakeDirs result_dir) (now w) = None →
  file_at (files w) fixed_file = Some fixed_text →
  fixed_file ≠ path_join E result_dir (lit "original_code.java") →
  (∀ t, fails E (ReadFile fixed_file) t = None) →
  (∀ t, write_status_at E [] (path_join E result_dir (lit "generated_code.java"))
          fixed_code t = Written) →
  ∀ w1,
    now w1 = (match read_at E (files w) original_file (S (now w)) with
              | Ok _ => 6
              | Err _ => 5
              end + now w)%nat →
    match @calculate_code_bleu E (list (list N * pyval)) (VStr fixed_code) (VStr code) w1 with
    | (Val score, w2) =>
        let saved := VDict [(lit "codebleu", score_value score)] in
        match write_status_at E (json_dumped_before_error E true saved)
                (path_join E result_dir (lit "codebleu_result.json"))
                (json_dumps E true saved) (now w2) with
        | Written => run.1 = Val (scored_result bug_id score)
        | _ => run.1 = Raise (AttributeError "_generate_html_report")
        end
    | _ => False
    end.
Proof.
  intros result_dir fixed_code run Hmk Hfile Hne Hread Hgen w1 Hw1.
  subst run result_dir fixed_code.
  destruct w as [fs t tr]. destruct w1 as [fs1 t1 tr1].
  cbn [now files] in Hmk, Hfile, Hw1. subst t1.
  destruct (calculate_code_bleu_run E (R := list (list N * pyval))
              (VStr (universal_newlines fixed_text)) (VStr code)
              (World fs1 (match read_at E fs original_file (S t) with
                          | Ok _ => 6
                          | Err _ => 5
                          end + t)%nat tr1)) as (l1 & -> & _).
  cbn [now files].
  destruct (read_at E fs original_file (S t)) as [original_code|e0] eqn:Hread0;
    cbn [Nat.add];
    destruct (write_status_at E _ _ _ (codebleu_end E _)) eqn:Hsave.
  all: wp_for (@evaluate_fix E R results_dir bug_id fixed_file original_file (Some code)
                 project_dir) (World fs t tr);
       unfold evaluate_fix;
       repeat lazymatch goal with
         | |- match read_at E (<[_ := _]> _) _ _ with _ => _ end =>
             first [ rewrite read_at_insert_ne by done | evaluate_fix_rule ]
         | |- match read_at E ?fs' ?p ?t' with _ => _ end =>
             first [ rewrite (read_at_file E fs' p t' fixed_text Hfile (Hread t')); wp_simpl
                   | evaluate_fix_rule ]
         | |- match write_status_at E [] (path_join E _ (lit "generated_code.java")) _ ?t'
              with _ => _ end =>
             rewrite (Hgen t'); wp_simpl
         | _ => evaluate_fix_rule
         end.
  all: done.
Qed.

End EvaluateCases.

(** C8, as amended.  [evaluate_fix] ends in one of three ways, and
    never runs the Semgrep check or the test run that follow its
    [return]:

    - it raises, and then either the result directory could not be
      created - the exception of [os.makedirs] - or the handler of the
      CodeBLEU block looked up [_generate_html_report];
    - it returns the result as created, whose keys are [bug_id],
      [code_quality] ([None]) and [details];
    - it returns the result with the same three keys and the score
      [calculate_code_bleu] gave for some fixed code and target code.

    When the result directory cannot be created it raises.  When it
    can, the result is the one created - [code_quality] is [None] -
    when the fixed file does not exist, when the fixed file cannot be
    read, and when no target code is given and the target file cannot
    be read or does not exist.  When a target code is given, the fixed
    file exists and can be read and its copy can be written, the score
    is the one [calculate_code_bleu] returns for the text of the fixed
    file and the target code at the time it is called ([None] when the
    computation fails), and it is returned when the score file can be
    written; when that file cannot be written the handler raises
    [AttributeError]. *)
Theorem evaluate_fix_spec (E : Eff.env) (R : Type)
    (results_dir bug_id fixed_file original_file : list N)
    (target_code project_dir : option (list N)) (w : Eff.world) :
  let result_dir :=
    Eff.path_join E (Eff.path_join E results_dir bug_id) (PyStr.lit "evaluation") in
  let target_file :=
    PyStr.replace (PyStr.lit "before.java") (PyStr.lit "after.java") original_file in
  let run :=
    @Evaluation.evaluate_fix E R results_dir bug_id fixed_file original_file target_code
      project_dir w in
  match run.1 with
  | Py.Val d =>
      Py.dict_keys d = [PyStr.lit "bug_id"; PyStr.lit "code_quality"; PyStr.lit "details"]
      ∧ (d = Evaluation.initial_result bug_id
         ∨ ∃ fixed_code target w1 score,
             (@Evaluation.calculate_code_bleu E (list (list N * Py.pyval))
                (Py.VS (Py.SStr fixed_code)) (Py.VS (Py.SStr target)) w1).1 = Py.Val score
             ∧ d = Evaluation.scored_result bug_id score
             ∧ ∀ code, target_code = Some code → target = code)
  | Py.Raise e =>
      Eff.fails E (Eff.MakeDirs result_dir) (Eff.now w) = Some e
      ∨ e = Py.AttributeError "_generate_html_report"
  | Py.Return _ => False
  end
  ∧ (∃ l, Eff.trace run.2 = Eff.trace w ++ l
          ∧ Forall (λ e, ¬ Evaluation.after_return e) l)
  ∧ (∀ e, Eff.fails E (Eff.MakeDirs result_dir) (Eff.now w) = Some e → run.1 = Py.Raise e)
  ∧ (Eff.fails E (Eff.MakeDirs result_dir) (Eff.now w) = None →
     (Eff.file_at (Eff.files w) fixed_file = None →
      run.1 = Py.Val (Evaluation.initial_result bug_id))
     ∧ ((∀ t, Eff.fails E (Eff.ReadFile fixed_file) t ≠ None) →
        run.1 = Py.Val (Evaluation.initial_result bug_id))
     ∧ (target_code = None →
        (∀ t, Eff.fails E (Eff.ReadFile target_file) t ≠ None) →
        run.1 = Py.Val (Evaluation.initial_result bug_id))
     ∧ (target_code = None →
        Eff.file_at (Eff.files w) target_file = None →
        target_file ≠ Eff.path_join E result_dir (PyStr.lit "original_code.java") →
        target_file ≠ Eff.path_join E result_dir (PyStr.lit "generated_code.java") →
        run.1 = Py.Val (Evaluation.initial_result bug_id))
     ∧ (∀ code fixed_text,
          target_code = Some code →
          Eff.file_at (Eff.files w) fixed_file = Some fixed_text →
          fixed_file ≠ Eff.path_join E result_dir (PyStr.lit "original_code.java") →
          (∀ t, Eff.fails E (Eff.ReadFile fixed_file) t = None) →
          (∀ t, Eff.write_status_at E []
                  (Eff.path_join E result_dir (PyStr.lit "generated_code.java"))
                  (PyStr.universal_newlines fixed_text) t = Eff.Written) →
          ∀ w1,
            Eff.now w1
            = (match Eff.read_at E (Eff.files w) original_file (S (Eff.now w)) with
               | Py.Ok _ => 6
               | Py.Err _ => 5
               end + Eff.now w)%nat →
            match @Evaluation.calculate_code_bleu E (list (list N * Py.pyval))
                    (Py.VS (Py.SStr (PyStr.universal_newlines fixed_text)))
                    (Py.VS (Py.SStr code)) w1 with
            | (Py.Val score, w2) =>
                let saved :=
                  Py.VDict [(PyStr.lit "codebleu", Evaluation.score_value score)] in
                match Eff.write_status_at E (Eff.json_dumped_before_error E true saved)
                        (Eff.path_join E result_dir (PyStr.lit "codebleu_result.json"))
                        (Eff.json_dumps E true saved) (Eff.now w2) with
                | Eff.Written => run.1 = Py.Val (Evaluation.scored_result bug_id score)
                | _ => run.1 = Py.Raise (Py.AttributeError "_generate_html_report")
                end
            | _ => False
            end)).
Proof.
  intros result_dir target_file run.
  destruct (evaluate_fix_cases E (R := R) results_dir bug_id fixed_file original_file
              target_code project_dir w) as (out & w' & Hrun & Htrace & Hout).
  split; [|split; [|split; [|intros Hmk; repeat split]]].
  - subst run. rewrite Hrun. simpl. destruct out as [d|r|e]; [|done..].
    split; [|done]. by destruct Hout as [->|(? & ? & ? & ? & _ & -> & _)].
  - subst run. by rewrite Hrun.
  - intros e He. by apply evaluate_fix_makedirs_fails.
  - intros Hfile. by apply evaluate_fix_no_fixed_file.
  - intros Hunread. by apply evaluate_fix_unreadable.
  - intros -> Hunread. by apply evaluate_fix_target_unreadable.
  - intros -> Habsent Hne1 Hne2. by apply evaluate_fix_no_target_file.
  - intros code fixed_text -> Hfile Hne Hread Hgen w1 Hw1.
    by apply (evaluate_fix_scored E (R := R) results_dir bug_id fixed_file original_file
                code fixed_text project_dir w Hmk Hfile Hne Hread Hgen w1 Hw1).
Qed.

(** The theorem at work on a run in which the fixed file is in place
    and every request succeeds: the result carries the score. *)
Lemma evaluate_fix_witness :
  (@Evaluation.evaluate_fix (Examples.env_of None Examples.never) unit
     (PyStr.lit "out") (PyStr.lit "b1") (PyStr.lit "out/b1/fixed.java")
     (PyStr.lit "data/b1/before.java") (Some (PyStr.lit "void f() { ok(); }")) None
     (Eff.World {[ PyStr.lit "out/b1/fixed.java" := PyStr.lit "void f() { }" ]} 0 [])).1
  = Py.Val (Evaluation.scored_result (PyStr.lit "b1") (Some (Q2Qc (1 # 2)))).
Proof.
  pose proof (evaluate_fix_spec (Examples.env_of None Examples.never) unit
    (PyStr.lit "out") (PyStr.lit "b1") (PyStr.lit "out/b1/fixed.java")
    (PyStr.lit "data/b1/before.java") (Some (PyStr.lit "void f() { ok(); }")) None
    (Eff.World {[ PyStr.lit "out/b1/fixed.java" := PyStr.lit "void f() { }" ]} 0 []))
    as (_ & _ & _ & Hspec).
  specialize (Hspec eq_refl) as (_ & _ & _ & _ & Hscored).
  specialize (Hscored (PyStr.lit "void f() { ok(); }") (PyStr.lit "void f() { }") eq_refl).
  specialize (Hscored ltac:(vm_compute; reflexivity) ltac:(vm_compute; discriminate)
                (λ t, eq_refl) (λ t, eq_refl) (Eff.World ∅ 5 []) ltac:(vm_compute; reflexivity)).
  vm_compute in Hscored. vm_compute. exact Hscored.
Defined.

(** C8 as stated fails: when the result directory cannot be created,
    [evaluate_fix] raises and returns no dictionary. *)
Lemma evaluate_fix_may_raise :
  ¬ ∃ d,
    (@Evaluation.evaluate_fix (Examples.env_of None (λ t, bool_decide (t = 0%nat))) unit
       (PyStr.lit "out") (PyStr.lit "b1") (PyStr.lit "out/b1/fixed.java")
       (PyStr.lit "data/b1/before.java") (Some (PyStr.lit "void f() { ok(); }")) None
       Examples.world0).1 = Py.Val d.
Proof. intros [d Hd]. vm_compute in Hd. discriminate Hd. Qed.

(** With the fixed file in place and the write of the CodeBLEU result
    failing, the handler looks up [_generate_html_report], which the
    class does not define. *)
Example evaluate_fix_handler_raises :
  (@Evaluation.evaluate_fix (Examples.env_of None (λ t, bool_decide (t = 7%nat))) unit
     (PyStr.lit "out") (PyStr.lit "b1") (PyStr.lit "out/b1/fixed.java")
     (PyStr.lit "data/b1/before.java") (Some (PyStr.lit "void f() { ok(); }")) None
     (Eff.World {[ PyStr.lit "out/b1/fixed.java" := PyStr.lit "void f() { }" ]} 0 [])).1
  = Py.Raise (Py.AttributeError "_generate_html_report").
Proof. vm_compute. reflexivity. Qed.
(** ** Merging the tools' outputs ([graph/graph_builder.py]) *)

Section DictFacts.
Import Py.
Context {V : Type}.
Implicit Types (d : list (list N * V)) (k : list N) (v : V).









End DictFacts.

Section GraphFacts.
Import PyStr Py Graph.


(** *** [add_node] *)





(** *** [add_edge] *)












#[local] Instance extends_preorder : PreOrder extends.
Proof.
  split.
  - intros g. split; [done|]. intros e He. by exists e.
  - intros g1 g2 g3 [Hn1 He1] [Hn2 He2]. split; [by auto|].
    intros e He. destruct (He1 e He) as (e' & He' & <- & <- & <-).
    destruct (He2 e' He') as (e'' & ? & ? & ? & ?). by exists e''.
Qed.

(** *** Nodes and their tool *)







(** *** The three merges extend the graph *)






(** *** CodeQL paths *)





(** *** Joern nodes *)








(** *** Semgrep findings *)






End GraphFacts.



